(** * shophub-shell-admin: the admin host's state transitions, error boundary,
      render set and remote registry, embedded from the JavaScript sources.

    Sources embedded here:
    - [src/theme/theme.js], lines 195-437: the lazy remotes, [RemoteErrorBoundary]
      and [AdminHome] (cart, wishlist, totals, render of the grid);
    - the webpack configuration (remote URL resolution, [mfRemotes]).

    JavaScript values are modelled as data: undefined, null, booleans, IEEE-754
    doubles (Rocq's primitive floats are binary64, as JS numbers are), strings
    (held as their UTF-8 bytes, and cut into UTF-16 code units where the code
    goes by code unit), plain objects and arrays.  Objects and arrays carry a reference, because
    [===] compares them by reference and never by content; they are data
    records, with the [toString] and [valueOf] of [Object.prototype] and
    [Array.prototype].  Symbols, BigInts and functions are not modelled. *)

From Stdlib Require Import Floats DecimalString Ascii.
From stdpp Require Import base option list strings gmap.

Open Scope string_scope.
Open Scope list_scope.

(** ** JavaScript values and the operators the host code applies to them *)
Module JS.

#[warnings="-register-all"]
Inductive value : Type :=
  | VUndefined
  | VNull
  | VBool (b : bool)
  | VNum (n : float)
  | VStr (s : string)
  | VObj (ref : positive) (props : list (string * value))
  | VArr (ref : positive) (elems : list value).

(** The own enumerable properties of an object literal built by the host, in
    property order.  The host never compares two such objects with each other,
    so they carry no reference. *)
Definition obj : Type := list (string * value).

(** A completion: the host code either returns or throws a [TypeError]
    (reading a property of [undefined] or [null], calling a non-function). *)
Inductive completion (A : Type) : Type :=
  | Normal (a : A)
  | TypeError.
Arguments Normal {A} a.
Arguments TypeError {A}.

#[global] Instance completion_bind : MBind completion := fun A B k c =>
  match c with
  | Normal a => k a
  | TypeError => TypeError
  end.

(** [Array.prototype.map] with a callback that may throw: the first throw
    aborts the whole call. *)
Fixpoint map_throwing {A B} (f : A -> completion B) (l : list A) : completion (list B) :=
  match l with
  | [] => Normal []
  | a :: l' => b ← f a; bs ← map_throwing f l'; Normal (b :: bs)
  end.

(** The two conversions between strings and numbers (ECMAScript's
    StringToNumber and Number::toString) are part of the language, not of
    this repository: every statement below holds for any pair of them. *)
Class Coercions : Type := {
  StringToNumber : string -> float;
  NumberToString : float -> string;
}.

Definition is_nullish (v : value) : bool :=
  match v with
  | VUndefined | VNull => true
  | _ => false
  end.

(** [a ?? b] *)
Definition nullish_coalesce (a b : value) : value :=
  if is_nullish a then b else a.

(** [a === b].  Numbers compare as IEEE-754 doubles ([NaN] differs from
    itself, [+0] equals [-0]); objects and arrays by reference. *)
Definition strict_eq (a b : value) : bool :=
  match a, b with
  | VUndefined, VUndefined => true
  | VNull, VNull => true
  | VBool x, VBool y => Bool.eqb x y
  | VNum x, VNum y => PrimFloat.eqb x y
  | VStr x, VStr y => String.eqb x y
  | VObj r _, VObj r' _ => Pos.eqb r r'
  | VArr r _, VArr r' _ => Pos.eqb r r'
  | _, _ => false
  end.

(** When two doubles are [===]: both zero (of either sign), or the same
    non-NaN double. *)
Definition same_double (a b : spec_float) : Prop :=
  match a, b with
  | S754_zero _, S754_zero _ => True
  | S754_infinity s, S754_infinity s' => s = s'
  | S754_finite s m e, S754_finite s' m' e' => s = s' /\ m = m' /\ e = e'
  | _, _ => False
  end.

(** Lookup of a key among own properties. *)
Fixpoint lookup_prop (k : string) (o : obj) : option value :=
  match o with
  | [] => None
  | (k', v) :: o' => if String.eqb k' k then Some v else lookup_prop k o'
  end.

(** [x.k] on a host-built object: [undefined] when [k] is no property.  As
    for [get_opt] below, [k] is a name no built-in prototype defines. *)
Definition get (o : obj) (k : string) : value :=
  default VUndefined (lookup_prop k o).

(** [{ ...o, k: v }]: an existing property keeps its position and takes the
    new value, a new one comes last. *)
Fixpoint set_prop (k : string) (v : value) (o : obj) : obj :=
  match o with
  | [] => [(k, v)]
  | (k', v') :: o' => if String.eqb k' k then (k, v) :: o' else (k', v') :: set_prop k v o'
  end.

(** [v?.k] for the property names the host reads ([id], [message]): names that
    no built-in prototype defines and that are neither an array index nor
    [length].  Primitives, and arrays under such a name, give [undefined]. *)
Definition get_opt (v : value) (k : string) : value :=
  match v with
  | VObj _ props => get props k
  | _ => VUndefined
  end.

(** [v.k]: as [v?.k], but reading a property of [undefined] or [null] throws. *)
Definition get_prop (v : value) (k : string) : completion value :=
  if is_nullish v then TypeError else Normal (get_opt v k).

(** The decimal index keys of an array or string. *)
Definition index_key (i : nat) : string := NilZero.string_of_uint (Nat.to_uint i).

(** A continuation byte of UTF-8, [10xxxxxx]. *)
Definition is_continuation (c : ascii) : bool :=
  (128 <=? N_of_ascii c)%N && (N_of_ascii c <? 192)%N.

(** The six payload bits of a continuation byte. *)
Definition payload (c : ascii) : N := (N_of_ascii c mod 64)%N.

(** A lone UTF-16 code unit [u] of the surrogate range, as a string of its
    own: the three bytes [1110xxxx 10xxxxxx 10xxxxxx] of [u]. *)
Definition surrogate (u : N) : string :=
  String (ascii_of_N (224 + u / 4096))
    (String (ascii_of_N (128 + (u / 64) mod 64))
       (String (ascii_of_N (128 + u mod 64)) EmptyString)).

(** The two surrogates of the character above U+FFFF that the four bytes
    [c0 c1 c2 c3] encode. *)
Definition surrogate_pair (c0 c1 c2 c3 : ascii) : list string :=
  let cp := ((N_of_ascii c0 mod 8) * 262144 + payload c1 * 4096
             + payload c2 * 64 + payload c3)%N in
  let offset := (cp - 65536)%N in
  [surrogate (55296 + offset / 1024); surrogate (56320 + offset mod 1024)].

(** The UTF-16 code units of a string, each as a one-unit string: a spread
    and an index read go by code unit.  A character of one, two or three
    bytes is one unit; a character of four bytes is a surrogate pair, two
    units; a byte that starts no well-formed character stands alone. *)
Fixpoint string_chars (s : string) : list value :=
  match s with
  | EmptyString => []
  | String c0 r0 =>
      let alone := VStr (String c0 EmptyString) :: string_chars r0 in
      let lead := N_of_ascii c0 in
      match r0 with
      | EmptyString => alone
      | String c1 r1 =>
          if (192 <=? lead)%N && (lead <? 224)%N && is_continuation c1
          then VStr (String c0 (String c1 EmptyString)) :: string_chars r1
          else
            match r1 with
            | EmptyString => alone
            | String c2 r2 =>
                if (224 <=? lead)%N && (lead <? 240)%N
                   && is_continuation c1 && is_continuation c2
                then VStr (String c0 (String c1 (String c2 EmptyString)))
                     :: string_chars r2
                else
                  match r2 with
                  | EmptyString => alone
                  | String c3 r3 =>
                      if (240 <=? lead)%N && (lead <? 248)%N
                         && is_continuation c1 && is_continuation c2
                         && is_continuation c3
                      then map VStr (surrogate_pair c0 c1 c2 c3) ++ string_chars r3
                      else alone
                  end
            end
      end
  end.

(** The properties copied by a spread [{ ...v }]: none for undefined, null,
    booleans and numbers; the indexed elements of an array or a string. *)
Definition own_props (v : value) : obj :=
  match v with
  | VObj _ props => props
  | VArr _ elems => imap (fun i e => (index_key i, e)) elems
  | VStr s => imap (fun i e => (index_key i, e)) (string_chars s)
  | _ => []
  end.

Fixpoint join_with (sep : string) (l : list string) : string :=
  match l with
  | [] => EmptyString
  | [s] => s
  | s :: l' => s +:+ sep +:+ join_with sep l'
  end.

Section coercions.
Context `{Coercions}.

(** ToString.  A plain object prints as [[object Object]]; an array joins
    its elements with commas, undefined and null elements printing empty. *)
Fixpoint ToString (v : value) : string :=
  match v with
  | VUndefined => "undefined"
  | VNull => "null"
  | VBool true => "true"
  | VBool false => "false"
  | VNum n => NumberToString n
  | VStr s => s
  | VObj _ _ => "[object Object]"
  | VArr _ elems =>
      join_with ","
        (map (fun e => if is_nullish e then EmptyString else ToString e) elems)
  end.

(** ToPrimitive: objects and arrays go through their [toString]
    ([valueOf] returns the object itself). *)
Definition ToPrimitive (v : value) : value :=
  match v with
  | VObj _ _ | VArr _ _ => VStr (ToString v)
  | _ => v
  end.

(** ToNumber, which is what [Number(v)] returns. *)
Definition ToNumber (v : value) : float :=
  match ToPrimitive v with
  | VUndefined => nan
  | VNull => 0%float
  | VBool true => 1%float
  | VBool false => 0%float
  | VNum n => n
  | VStr s => StringToNumber s
  | _ => nan
  end.

(** [a + b]: concatenation as soon as one primitive is a string. *)
Definition js_add (a b : value) : value :=
  match ToPrimitive a, ToPrimitive b with
  | VStr s, pb => VStr (s +:+ ToString pb)
  | pa, VStr s => VStr (ToString pa +:+ s)
  | pa, pb => VNum (ToNumber pa + ToNumber pb)%float
  end.
End coercions.

(** ToBoolean: the falsy values are undefined, null, false, [+0], [-0],
    [NaN] and the empty string. *)
Definition ToBoolean (v : value) : bool :=
  match v with
  | VUndefined | VNull => false
  | VBool b => b
  | VNum n => negb (PrimFloat.eqb n 0%float) && PrimFloat.eqb n n
  | VStr s => negb (String.eqb s EmptyString)
  | VObj _ _ | VArr _ _ => true
  end.

(** [n || 0] on a number. *)
Definition num_or_zero (n : float) : float :=
  if ToBoolean (VNum n) then n else 0%float.

End JS.

(** ** [AdminHome]: the host state and the callbacks handed to the remotes *)
Module AdminHome.
Import JS.

(** [adminUser] (theme.js 267-270).  The memoised object and its array are
    allocated once per mount; the two references stand for them. *)
Definition adminUser : value :=
  VObj 1 [("name", VStr "Admin");
          ("email", VStr "admin@shophub.dev");
          ("role", VStr "ADMIN");
          ("permissions", VArr 2 [VStr "EDIT"; VStr "VIEW_WISHLIST_META"])].

(** The cart and the wishlist start empty ([useState([])]) and are only ever
    replaced by the updaters below, so their entries are objects built by the
    host's own literals: on an entry, [x?.id] is [x.id] and a found entry is
    truthy. *)
Definition cart : Type := list obj.
Definition wishlist : Type := list obj.

Section updaters.
Context `{Coercions}.

(** theme.js 272-279, the updater passed to [setCartItems]:
    [prev.find(x => x?.id === product?.id)]; when an entry is found,
    [prev.map(x => x.id === product.id ? {...x, quantity: (x.quantity ?? 1) + 1} : x)],
    else [[...prev, {...product, quantity: 1}]].  The callback of [map] reads
    [product.id] without [?.], which throws on a null or undefined product. *)
Definition addToCart (product : value) (prev : cart) : completion cart :=
  match List.find (fun x => strict_eq (get x "id") (get_opt product "id")) prev with
  | Some _ =>
      map_throwing
        (fun x =>
           pid ← get_prop product "id";
           Normal (if strict_eq (get x "id") pid
                   then set_prop "quantity"
                          (js_add (nullish_coalesce (get x "quantity") (VNum 1)) (VNum 1)) x
                   else x))
        prev
  | None => Normal (prev ++ [set_prop "quantity" (VNum 1) (own_props product)])
  end.

(** theme.js 281-283: [prev.filter(x => x?.id !== productId)]. *)
Definition removeFromCart (productId : value) (prev : cart) : cart :=
  List.filter (fun x => negb (strict_eq (get x "id") productId)) prev.

(** theme.js 285-287:
    [prev.map(x => x?.id === productId ? {...x, quantity} : x)]. *)
Definition updateQuantity (productId quantity : value) (prev : cart) : cart :=
  map (fun x => if strict_eq (get x "id") productId
                then set_prop "quantity" quantity x else x) prev.

(** theme.js 289: [setCartItems([])]. *)
Definition clearCart (prev : cart) : cart := [].

(** theme.js 291-292. *)
Definition removeFromWishlist (productId : value) (prev : wishlist) : wishlist :=
  List.filter (fun x => negb (strict_eq (get x "id") productId)) prev.

Definition clearWishlist (prev : wishlist) : wishlist := [].

(** theme.js 293-297: [prev.some(x => x?.id === product?.id)] keeps [prev],
    else [[{...product, addedBy: adminUser}, ...prev]]. *)
Definition addToWishlist (product : value) (prev : wishlist) : wishlist :=
  if existsb (fun x => strict_eq (get x "id") (get_opt product "id")) prev
  then prev
  else set_prop "addedBy" adminUser (own_props product) :: prev.

(** theme.js 298. *)
Definition isInWishlist (wishlistItems : wishlist) (productId : value) : bool :=
  existsb (fun x => strict_eq (get x "id") productId) wishlistItems.

(** theme.js 310-311: [cartItems.reduce((sum, item) =>
    sum + (Number(item?.price) || 0) * (Number(item?.quantity) || 0), 0)].
    Both factors are numbers, and so is [sum]: [+] and [*] are the
    floating-point operations. *)
Definition getCartTotal (cartItems : cart) : float :=
  fold_left
    (fun sum item =>
       (sum + num_or_zero (ToNumber (get item "price"))
              * num_or_zero (ToNumber (get item "quantity")))%float)
    cartItems 0%float.

(** theme.js 312: [cartItems.length === 0]. *)
Definition isCartEmpty (cartItems : cart) : bool :=
  Nat.eqb (length cartItems) 0.

(** The calls a remote can make on the cart, and a run of them: React
    applies the queued updaters one after the other, and a throwing updater
    ends the run. *)
Inductive cart_op : Type :=
  | AddToCart (product : value)
  | RemoveFromCart (productId : value)
  | UpdateQuantity (productId quantity : value)
  | ClearCart.

Definition apply_op (op : cart_op) (prev : cart) : completion cart :=
  match op with
  | AddToCart product => addToCart product prev
  | RemoveFromCart productId => Normal (removeFromCart productId prev)
  | UpdateQuantity productId quantity => Normal (updateQuantity productId quantity prev)
  | ClearCart => Normal (clearCart prev)
  end.

Fixpoint run (ops : list cart_op) (prev : cart) : completion cart :=
  match ops with
  | [] => Normal prev
  | op :: ops' => next ← apply_op op prev; run ops' next
  end.
End updaters.

End AdminHome.

(** ** [RemoteErrorBoundary] (theme.js 209-239) *)
Module RemoteErrorBoundary.
Import JS.

(** [this.state]: [{ error: null }] after the constructor. *)
Record state : Type := { error : value }.

Definition initial : state := {| error := VNull |}.

(** [static getDerivedStateFromError(error) { return { error }; }] *)
Definition getDerivedStateFromError (e : value) : state := {| error := e |}.

(** What [render()] returns: the children, or the fallback [Paper] with its
    heading ([{title} crashed]) and its monospace body. *)
Inductive rendered : Type :=
  | Children
  | Fallback (heading body : string).

Section render.
Context `{Coercions}.

(** [String(this.state.error?.message ?? this.state.error)] *)
Definition description (e : value) : string :=
  ToString (nullish_coalesce (get_opt e "message") e).

(** [if (!this.state.error) return this.props.children;] else the fallback. *)
Definition render (title : string) (st : state) : rendered :=
  if negb (ToBoolean (error st)) then Children
  else Fallback (title +:+ " crashed") (description (error st)).
End render.

(** The life of one boundary instance.  React calls [render]; while the
    children are what is rendered, one of them may throw [e], which React
    hands to [getDerivedStateFromError] before rendering again.  The fallback
    is built from host elements only and does not throw. *)
Inductive event : Type :=
  | Render
  | ChildThrows (e : value).

Definition step (st : state) (ev : event) : option state :=
  match ev with
  | Render => Some st
  | ChildThrows e =>
      if negb (ToBoolean (error st)) then Some (getDerivedStateFromError e) else None
  end.

Fixpoint steps (st : state) (evs : list event) : option state :=
  match evs with
  | [] => Some st
  | ev :: evs' => st' ← step st ev; steps st' evs'
  end.

(** [window.zipy], when truthy: its [logException] property is a function
    (which may itself throw) or is not callable. *)
Record zipy_sdk : Type := { logException : option (list value -> completion unit) }.

(** What [componentDidCatch] does to the outside. *)
Inductive effect : Type :=
  | ConsoleError (args : list value)
  | ZipyLogException (args : list value).

(** theme.js 219-224:
    [console.error('[admin-host] Remote crashed:', this.props?.title, error);
     if (window.zipy) window.zipy.logException(error);] *)
Definition componentDidCatch (title : string) (window_zipy : option zipy_sdk)
    (e : value) : list effect * completion unit :=
  let logged := [ConsoleError [VStr "[admin-host] Remote crashed:"; VStr title; e]] in
  match window_zipy with
  | None => (logged, Normal tt)
  | Some sdk =>
      match logException sdk with
      | Some f => (logged ++ [ZipyLogException [e]], f [e])
      | None => (logged, TypeError)
      end
  end.

End RemoteErrorBoundary.

(** ** The grid rendered by [AdminHome] (theme.js 314-364, 409-433) *)
Module Grid.

(** The five [React.lazy] handles (theme.js 195-199). *)
Inductive remote : Type :=
  | RemoteWishlist
  | RemoteLogin
  | RemoteProducts
  | RemoteCart
  | RemoteAccount.

(** The module each handle imports on first render. *)
Definition import_of (r : remote) : string :=
  match r with
  | RemoteWishlist => "wishlist/Wishlist"
  | RemoteLogin => "auth/Login"
  | RemoteProducts => "catalog/Products"
  | RemoteCart => "checkout/Cart"
  | RemoteAccount => "account/Account"
  end.

(** The elements of the grid.  The props given to a remote (state snapshots
    and callbacks) play no part in which modules are rendered and are left
    out. *)
Inductive element : Type :=
  | Loader
  | Lazy (r : remote)
  | Suspense (fallback children : element)
  | SectionPaper (title : string) (children : element)
  | Boundary (key : option string) (title : string) (children : element).

(** An option of the multi-select: [{ id, label, render }]. *)
Record item : Type := { id : string; label : string; render : unit -> element }.

Definition items : list item :=
  [ {| id := "auth.login"; label := "Auth → Login"; render := fun _ => Lazy RemoteLogin |};
    {| id := "catalog.products"; label := "Catalog → Products";
       render := fun _ => Lazy RemoteProducts |};
    {| id := "checkout.cart"; label := "Checkout → Cart"; render := fun _ => Lazy RemoteCart |};
    {| id := "account.profile"; label := "Account → Profile";
       render := fun _ => Lazy RemoteAccount |} ].

(** [new Map(items.map(x => [x.id, x]))]: a later entry replaces an earlier
    one under the same key. *)
Definition byId (its : list item) : gmap string item :=
  foldl (fun m x => <[id x := x]> m) ∅ its.

(** [selected.map(id => byId.get(id)).filter(Boolean)] *)
Definition selectedItems (selected : list string) : list item :=
  omap (fun i => byId items !! i) selected.

(** The children of the grid [Box]: the Wishlist boundary, then one boundary
    per selected item. *)
Definition grid (selected : list string) : list element :=
  Boundary None "Wishlist"
    (SectionPaper "Wishlist" (Suspense Loader (Lazy RemoteWishlist)))
  :: map (fun it =>
            Boundary (Some (id it)) (label it)
              (SectionPaper (label it) (Suspense Loader (render it tt))))
         (selectedItems selected).

(** The lazy handles below an element, and those of the whole grid. *)
Fixpoint remotes_of (e : element) : list remote :=
  match e with
  | Loader => []
  | Lazy r => [r]
  | Suspense f c => remotes_of c
  | SectionPaper _ c => remotes_of c
  | Boundary _ _ c => remotes_of c
  end.

Definition rendered_remotes (selected : list string) : list remote :=
  concat (map remotes_of (grid selected)).

(** The remote an option of the select control stands for. *)
Definition remote_of_option (i : string) : option remote :=
  if String.eqb i "auth.login" then Some RemoteLogin
  else if String.eqb i "catalog.products" then Some RemoteProducts
  else if String.eqb i "checkout.cart" then Some RemoteCart
  else if String.eqb i "account.profile" then Some RemoteAccount
  else None.

End Grid.

(** ** The remotes of the webpack configuration (lines 26-61) *)
Module Webpack.

Inductive remote_name : Type := auth | catalog | checkout | wishlist | account.

Definition name_of (r : remote_name) : string :=
  match r with
  | auth => "auth"
  | catalog => "catalog"
  | checkout => "checkout"
  | wishlist => "wishlist"
  | account => "account"
  end.

Definition env_var (r : remote_name) : string :=
  match r with
  | auth => "SHOPHUB_AUTH_REMOTE_URL"
  | catalog => "SHOPHUB_CATALOG_REMOTE_URL"
  | checkout => "SHOPHUB_CHECKOUT_REMOTE_URL"
  | wishlist => "SHOPHUB_WISHLIST_REMOTE_URL"
  | account => "SHOPHUB_ACCOUNT_REMOTE_URL"
  end.

Definition production_default (r : remote_name) : string :=
  match r with
  | auth => "https://shophub-auth-2.netlify.app/remoteEntry.js"
  | catalog => "https://shophub-catalog-2.netlify.app/remoteEntry.js"
  | checkout => "https://shophub-checkout-2.netlify.app/remoteEntry.js"
  | wishlist => "https://shophub-wishlist-2.netlify.app/remoteEntry.js"
  | account => "https://shophub-account-2.netlify.app/remoteEntry.js"
  end.

Definition development_default (r : remote_name) : string :=
  match r with
  | auth => "http://localhost:5174/remoteEntry.js"
  | catalog => "http://localhost:5175/remoteEntry.js"
  | checkout => "http://localhost:5176/remoteEntry.js"
  | wishlist => "http://localhost:5177/remoteEntry.js"
  | account => "http://localhost:5178/remoteEntry.js"
  end.

(** [const isProd = argv.mode === 'production'], [argv.mode] a string or
    undefined. *)
Definition isProd (mode : option string) : bool :=
  match mode with
  | Some m => String.eqb m "production"
  | None => false
  end.

(** [process.env.VAR ?? (isProd ? production : development)]: [process.env]
    maps a defined variable to a string, the empty one included, and [??]
    falls through on an undefined variable only. *)
Definition remoteUrl (env : gmap string string) (mode : option string)
    (r : remote_name) : string :=
  default (if isProd mode then production_default r else development_default r)
          (env !! env_var r).

(** The entry of [mfRemotes]: [`name@${url}`]. *)
Definition mfRemotes (env : gmap string string) (mode : option string)
    (r : remote_name) : string :=
  name_of r +:+ "@" +:+ remoteUrl env mode r.

End Webpack.

(** ** What the cart holds for a key, and what a run of calls should leave there *)
Module CartLedger.
Import JS AdminHome.

Section ledger.
Context `{Coercions}.

(** [(q ?? 1) + 1], the quantity after one more [addToCart]. *)
Definition incremented (q : value) : value :=
  js_add (nullish_coalesce q (VNum 1)) (VNum 1).

(** The update [addToCart] maps over the cart once the product's id [pid] is
    known to be there. *)
Definition bump (pid : value) (x : obj) : obj :=
  if strict_eq (get x "id") pid
  then set_prop "quantity" (incremented (get x "quantity")) x
  else x.


(** No two entries of the cart have [===] ids. *)
Fixpoint unique_ids (c : cart) : bool :=
  match c with
  | [] => true
  | x :: c' =>
      forallb (fun y => negb (strict_eq (get x "id") (get y "id"))) c' && unique_ids c'
  end.



(** A call that hands [addToCart] an actual value as its product. *)
Definition product_given (op : cart_op) : bool :=
  match op with
  | AddToCart product => negb (is_nullish product)
  | _ => true
  end.
(** The cart as the claim describes it after a removal: entry by entry,
    one whose id is [===] to [k] is dropped and any other is kept as it is,
    in place and as often as it occurs. *)
Fixpoint entries_without (k : value) (c : cart) : cart :=
  match c with
  | [] => []
  | x :: c' =>
      if strict_eq (get x "id") k then entries_without k c'
      else x :: entries_without k c'
  end.

(** How many entries of the cart have an id [===] to [k]. *)
Fixpoint count_key (k : value) (c : cart) : nat :=
  match c with
  | [] => 0
  | x :: c' => (if strict_eq (get x "id") k then 1 else 0) + count_key k c'
  end.

(** What [updateQuantity] does to one entry: a matching entry takes the new
    quantity and keeps every other property; any other entry is untouched. *)
Definition updated_entry (productId quantity : value) (x y : obj) : Prop :=
  if strict_eq (get x "id") productId
  then get y "quantity" = quantity /\
       forall k, k <> "quantity" -> lookup_prop k y = lookup_prop k x
  else y = x.

(** The number a price or a quantity counts as in the total:
    [Number(v) || 0]. *)
Definition counted (v : value) : float := num_or_zero (ToNumber v).

(** What one entry adds to the total. *)
Definition line_total (x : obj) : float :=
  (counted (get x "price") * counted (get x "quantity"))%float.
End ledger.

End CartLedger.

(** ** Values used in the worked examples *)
Module Samples.
Import JS AdminHome.

(** The closed examples convert no string to a number and no number to a
    string, so they evaluate alike under every [Coercions] (each has its
    general form next to it); they are stated under this one. *)
Definition sample_coercions : Coercions :=
  {| StringToNumber := fun _ => nan; NumberToString := fun _ => EmptyString |}.

(** The product of the scenario, [{id: 1, price: 10}]. *)
Definition product_1 : value := VObj 10 [("id", VNum 1); ("price", VNum 10)].

Definition product_2 : value := VObj 11 [("id", VNum 2); ("price", VNum 4)].


(** An entry already in the wishlist under id 1. *)
Definition wished_1 : obj := [("id", VNum 1); ("price", VNum 10); ("addedBy", adminUser)].

End Samples.


(** ** Runs of wishlist calls, and what callers of the cart pass *)
Module HostRuns.
Import JS AdminHome.

(** The calls a remote can make on the wishlist (theme.js 291-297); none of
    the three updaters can throw. *)
Inductive wishlist_op : Type :=
  | AddToWishlist (product : value)
  | RemoveFromWishlist (productId : value)
  | ClearWishlist.

Definition apply_wishlist_op (op : wishlist_op) (prev : wishlist) : wishlist :=
  match op with
  | AddToWishlist product => addToWishlist product prev
  | RemoveFromWishlist productId => removeFromWishlist productId prev
  | ClearWishlist => clearWishlist prev
  end.

Definition run_wishlist (ops : list wishlist_op) (prev : wishlist) : wishlist :=
  fold_left (fun w op => apply_wishlist_op op w) ops prev.

(** A value of type number. *)
Definition is_number (v : value) : bool :=
  match v with
  | VNum _ => true
  | _ => false
  end.

(** A call that, if it is an [updateQuantity], passes a number as quantity. *)
Definition numeric_update (op : cart_op) : bool :=
  match op with
  | UpdateQuantity _ quantity => is_number quantity
  | _ => true
  end.

End HostRuns.

(** ** The errors a boundary sees in its life *)
Module BoundaryTrace.
Import JS RemoteErrorBoundary.

(** The values thrown by the children, in order. *)
Definition thrown (evs : list event) : list value :=
  omap (fun ev => match ev with
                  | ChildThrows e => Some e
                  | Render => None
                  end) evs.

Definition falsy (v : value) : Prop := ToBoolean v = false.

End BoundaryTrace.

(** ** The multi-select of [AdminHome] (theme.js 385-405, 426-427) *)
Module SelectControl.
Import JS Grid.




(** theme.js 401: [<Checkbox checked={selected.includes(opt.id)} />]. *)
Definition checked (selected : list string) (opt : item) : bool :=
  existsb (fun i => String.eqb i (id opt)) selected.

(** The [key] React is given for a child of the grid (theme.js 427). *)
Definition key_of (e : element) : option string :=
  match e with
  | Boundary key _ _ => key
  | _ => None
  end.

End SelectControl.

(** ** The rest of the webpack configuration (lines 26-36, 63-141) *)
Module WebpackBuild.
Import Webpack.

Inductive loader : Type := MiniCssExtractLoader | StyleLoader | CssLoader.

Inductive plugin : Type :=
  | ModuleFederationPlugin (remotes : list (string * string))
  | HtmlWebpackPlugin (zipySdkUrl zipyProjectKey : string) (zipyReleaseVer : option string)
  | CopyWebpackPlugin
  | MiniCssExtractPlugin (filename : string).

(** The fields of the returned object that depend on the build mode or on
    the environment, and the three file-name templates of [output]. *)
Record config : Type := {
  mode : string;
  filename : string;
  chunkFilename : string;
  assetModuleFilename : string;
  css_use : list loader;
  plugins : list plugin;
  devtool : string;
}.

(** Whether [s] starts with [p], and whether [p] occurs somewhere in [s]. *)
Fixpoint starts_with (p s : string) : bool :=
  match p, s with
  | EmptyString, _ => true
  | String a p', String b s' => Ascii.eqb a b && starts_with p' s'
  | String _ _, EmptyString => false
  end.

Fixpoint occurs_in (p s : string) : bool :=
  starts_with p s ||
  match s with
  | EmptyString => false
  | String _ s' => occurs_in p s'
  end.

(** A file-name template that carries webpack's content hash. *)
Definition hashed (template : string) : bool := occurs_in "[contenthash]" template.

(** The file names given to [MiniCssExtractPlugin] instances among plugins. *)
Definition css_filenames (ps : list plugin) : list string :=
  omap (fun pl => match pl with
                  | MiniCssExtractPlugin f => Some f
                  | _ => None
                  end) ps.

(** [process.env.ZIPY_RELEASE_VER ?? process.env.SHOPHUB_RELEASE_VER ?? pkg.version];
    [pkg.version] comes from [package.json] and may be undefined. *)
Definition zipyReleaseVer (env : gmap string string) (pkg_version : option string)
    : option string :=
  match env !! "ZIPY_RELEASE_VER" with
  | Some v => Some v
  | None =>
      match env !! "SHOPHUB_RELEASE_VER" with
      | Some v => Some v
      | None => pkg_version
      end
  end.

(** [module.exports = (_env, argv) => ...], with [argv.mode] and
    [process.env] as arguments. *)
Definition module_exports (env : gmap string string) (argv_mode : option string)
    (pkg_version : option string) : config :=
  let prod := isProd argv_mode in
  {| mode := if prod then "production" else "development";
     filename := if prod then "assets/[name].[contenthash].js" else "assets/[name].js";
     chunkFilename := if prod then "assets/[name].[contenthash].js" else "assets/[name].js";
     assetModuleFilename := "assets/[name].[contenthash][ext][query]";
     css_use := [if prod then MiniCssExtractLoader else StyleLoader; CssLoader];
     plugins :=
       [ ModuleFederationPlugin
           (map (fun r => (name_of r, mfRemotes env argv_mode r))
                [auth; catalog; checkout; wishlist; account]);
         HtmlWebpackPlugin
           (default "https://storage.googleapis.com/zipy-cdn-staging/sdk/latest/zipy.min.umd.js"
                    (env !! "ZIPY_SDK_URL"))
           (default EmptyString (env !! "ZIPY_PROJECT_KEY"))
           (zipyReleaseVer env pkg_version);
         CopyWebpackPlugin ]
       ++ (if prod then [MiniCssExtractPlugin "assets/[name].[contenthash].css"] else []);
     devtool := if prod then "source-map" else "eval-cheap-module-source-map" |}.

End WebpackBuild.

(** ** Facts about the JavaScript operators *)
Module JSFacts.
Import JS.

Lemma SFeqb_true (a b : spec_float) : SFeqb a b = true <-> same_double a b.
Proof.
  unfold SFeqb, SFcompare, same_double.
  destruct a as [sa|sa| |sa ma ea], b as [sb|sb| |sb mb eb];
    try destruct sa; try destruct sb; try (split; (discriminate || tauto || reflexivity)).
  all: try (split; [discriminate | intros [? _]; discriminate]).
  all: destruct (Z.compare_spec ea eb) as [->| |];
    try (split; [discriminate | intros (_ & _ & ->); lia]).
  all: rewrite ?Pos.compare_cont_spec; simpl.
  all: destruct (Pos.compare_spec ma mb) as [->| |]; simpl;
    split; try discriminate; try tauto; intros (_ & -> & _); lia.
Qed.

Lemma same_double_sym a b : same_double a b -> same_double b a.
Proof. destruct a, b; simpl; intuition congruence. Qed.

Lemma same_double_trans a b c : same_double a b -> same_double b c -> same_double a c.
Proof. destruct a, b, c; simpl; intuition congruence. Qed.

Lemma float_eqb_sym (x y : float) : PrimFloat.eqb x y = PrimFloat.eqb y x.
Proof.
  rewrite !FloatAxioms.eqb_spec.
  destruct (SFeqb (Prim2SF x) (Prim2SF y)) eqn:E, (SFeqb (Prim2SF y) (Prim2SF x)) eqn:E';
    try reflexivity.
  - apply SFeqb_true, same_double_sym, SFeqb_true in E. congruence.
  - apply SFeqb_true, same_double_sym, SFeqb_true in E'. congruence.
Qed.

Lemma float_eqb_trans (x y z : float) :
  PrimFloat.eqb x y = true -> PrimFloat.eqb y z = true -> PrimFloat.eqb x z = true.
Proof.
  rewrite !FloatAxioms.eqb_spec, !SFeqb_true. apply same_double_trans.
Qed.

(** [===] is symmetric and transitive; it is not reflexive ([NaN]). *)
Lemma strict_eq_sym (a b : value) : strict_eq a b = strict_eq b a.
Proof.
  destruct a, b; simpl; try reflexivity.
  - destruct b, b0; reflexivity.
  - apply float_eqb_sym.
  - apply String.eqb_sym.
  - apply Pos.eqb_sym.
  - apply Pos.eqb_sym.
Qed.

Lemma strict_eq_trans (a b c : value) :
  strict_eq a b = true -> strict_eq b c = true -> strict_eq a c = true.
Proof.
  destruct a, b; simpl; try discriminate; destruct c; simpl; try discriminate; try reflexivity.
  - destruct b, b0, b1; simpl; congruence.
  - apply float_eqb_trans.
  - rewrite !String.eqb_eq. congruence.
  - rewrite !Pos.eqb_eq. congruence.
  - rewrite !Pos.eqb_eq. congruence.
Qed.

Lemma strict_eq_congr (a b c : value) :
  strict_eq a b = true -> strict_eq a c = strict_eq b c.
Proof.
  intros Hab.
  destruct (strict_eq a c) eqn:Hac, (strict_eq b c) eqn:Hbc; try reflexivity.
  - rewrite strict_eq_sym in Hab.
    rewrite (strict_eq_trans _ _ _ Hab Hac) in Hbc. discriminate.
  - rewrite (strict_eq_trans _ _ _ Hab Hbc) in Hac. discriminate.
Qed.

Lemma lookup_set_prop_same (k : string) (v : value) (o : obj) :
  lookup_prop k (set_prop k v o) = Some v.
Proof.
  induction o as [|[k' v'] o IH]; simpl.
  - now rewrite String.eqb_refl.
  - destruct (String.eqb k' k) eqn:E; simpl.
    + now rewrite String.eqb_refl.
    + now rewrite E.
Qed.

Lemma lookup_set_prop_other (k k' : string) (v : value) (o : obj) :
  k' <> k -> lookup_prop k' (set_prop k v o) = lookup_prop k' o.
Proof.
  intros Hne. induction o as [|[k0 v0] o IH]; simpl.
  - destruct (String.eqb k k') eqn:E; [|reflexivity].
    apply String.eqb_eq in E. congruence.
  - destruct (String.eqb k0 k) eqn:E; simpl.
    + apply String.eqb_eq in E. subst k0.
      destruct (String.eqb k k') eqn:E'; [|reflexivity].
      apply String.eqb_eq in E'. congruence.
    + now rewrite IH.
Qed.

Lemma get_set_prop_same (k : string) (v : value) (o : obj) :
  get (set_prop k v o) k = v.
Proof. unfold get. now rewrite lookup_set_prop_same. Qed.

Lemma get_set_prop_other (k k' : string) (v : value) (o : obj) :
  k' <> k -> get (set_prop k v o) k' = get o k'.
Proof. intros. unfold get. now rewrite lookup_set_prop_other. Qed.

(** An index key starts with a digit: it is none of the names the host reads. *)
Lemma index_key_not_id (i : nat) : String.eqb (index_key i) "id" = false.
Proof. unfold index_key. now destruct (Nat.to_uint i). Qed.

Lemma lookup_id_indexed {A} (f : nat -> A -> string * value) (l : list A) :
  (forall i a, String.eqb (fst (f i a)) "id" = false) ->
  lookup_prop "id" (imap f l) = None.
Proof.
  revert f. induction l as [|a l IH]; intros f Hf; simpl; [reflexivity|].
  specialize (Hf 0 a) as H0. destruct (f 0 a) as [k v]. simpl in H0. rewrite H0.
  apply IH. intros i a'. apply Hf.
Qed.

(** The id of a spread copy is the id [product?.id] reads. *)
Lemma get_own_props_id (product : value) :
  get (own_props product) "id" = get_opt product "id".
Proof.
  destruct product; simpl; try reflexivity; unfold get;
    (rewrite lookup_id_indexed; [reflexivity | intros; apply index_key_not_id]).
Qed.

Lemma map_throwing_normal {A B} (f : A -> completion B) (g : A -> B) (l : list A) :
  (forall a, f a = Normal (g a)) -> map_throwing f l = Normal (map g l).
Proof.
  intros Hf. induction l as [|a l IH]; simpl; [reflexivity|].
  now rewrite Hf, IH.
Qed.

Lemma map_throwing_throws {A B} (f : A -> completion B) (l : list A) :
  (forall a, f a = TypeError) -> l <> [] -> map_throwing f l = TypeError.
Proof.
  intros Hf Hl. destruct l as [|a l]; [congruence|]. simpl. now rewrite Hf.
Qed.

End JSFacts.

(** ** The cart: what each call does, and the run of calls *)
Module CartProofs.
Import JS JSFacts AdminHome CartLedger.

Section cart.
Context `{Coercions}.

Lemma incremented_number (n : float) : incremented (VNum n) = VNum (n + 1)%float.
Proof. reflexivity. Qed.

Lemma incremented_missing : incremented VUndefined = VNum 2%float.
Proof. reflexivity. Qed.


Lemma bump_quantity (pid : value) (x : obj) :
  get (bump pid x) "quantity" =
  if strict_eq (get x "id") pid then incremented (get x "quantity") else get x "quantity".
Proof.
  unfold bump. destruct (strict_eq (get x "id") pid); [|reflexivity].
  apply get_set_prop_same.
Qed.

(** *** [addToCart], case by case *)

Lemma addToCart_absent (product : value) (prev : cart) :
  List.find (fun x => strict_eq (get x "id") (get_opt product "id")) prev = None ->
  addToCart product prev
  = Normal (prev ++ [set_prop "quantity" (VNum 1) (own_props product)]).
Proof. intros Hfind. unfold addToCart. now rewrite Hfind. Qed.

Lemma addToCart_present (product : value) (prev : cart) (x : obj) :
  List.find (fun x => strict_eq (get x "id") (get_opt product "id")) prev = Some x ->
  is_nullish product = false ->
  addToCart product prev = Normal (map (bump (get_opt product "id")) prev).
Proof.
  intros Hfind Hp. unfold addToCart. rewrite Hfind.
  apply map_throwing_normal. intros a. unfold get_prop. now rewrite Hp.
Qed.

Lemma addToCart_present_nullish (product : value) (prev : cart) (x : obj) :
  List.find (fun x => strict_eq (get x "id") (get_opt product "id")) prev = Some x ->
  is_nullish product = true ->
  addToCart product prev = TypeError.
Proof.
  intros Hfind Hp. unfold addToCart. rewrite Hfind.
  apply map_throwing_throws.
  - intros a. unfold get_prop. now rewrite Hp.
  - intros ->. discriminate.
Qed.

(** *** The quantity held for a key, call by call *)







(** *** No two entries under one key *)


Lemma unique_ids_filter (f : obj -> bool) (c : cart) :
  unique_ids c = true -> unique_ids (List.filter f c) = true.
Proof.
  induction c as [|x c IH]; simpl; [reflexivity|].
  intros [Hx Hc]%andb_true_iff. specialize (IH Hc).
  destruct (f x); [|assumption]. simpl. rewrite IH, andb_true_r.
  rewrite forallb_forall in *. intros y [Hy _]%filter_In. now apply Hx.
Qed.


(** What [unique_ids] says, position by position. *)
Lemma unique_ids_lookup (c : cart) (i j : nat) (x y : obj) :
  unique_ids c = true ->
  c !! i = Some x -> c !! j = Some y -> i < j ->
  strict_eq (get x "id") (get y "id") = false.
Proof.
  revert i j. induction c as [|a c IH]; intros i j; [discriminate|].
  simpl. intros [Ha Hc]%andb_true_iff Hi Hj Hlt.
  destruct i as [|i], j as [|j]; simpl in Hi, Hj; try lia.
  - injection Hi as <-. rewrite forallb_forall in Ha.
    apply negb_true_iff, Ha, list_elem_of_In. eapply list_elem_of_lookup_2, Hj.
  - apply (IH i j); [assumption..|lia].
Qed.


(** *** One call, then a run of calls *)



(** A run throws only at an [addToCart] without a product. *)
Lemma apply_op_returns (op : cart_op) (c : cart) :
  product_given op = true -> exists c', apply_op op c = Normal c'.
Proof.
  destruct op as [product| | |]; simpl; eauto.
  intros Hp%negb_true_iff.
  destruct (List.find (fun x => strict_eq (get x "id") (get_opt product "id")) c)
    as [x|] eqn:Hfind.
  - rewrite (addToCart_present _ _ _ Hfind Hp). eauto.
  - rewrite (addToCart_absent _ _ Hfind). eauto.
Qed.

Lemma run_returns (ops : list cart_op) (c0 : cart) :
  forallb product_given ops = true -> exists c, run ops c0 = Normal c.
Proof.
  revert c0. induction ops as [|op ops IH]; simpl; intros c0; [eauto|].
  intros [Hop Hops]%andb_true_iff.
  destruct (apply_op_returns op c0 Hop) as [c1 ->]. simpl. now apply IH.
Qed.

End cart.
End CartProofs.

(** ** The claims about the cart *)
Module CartClaims.
Import JS JSFacts AdminHome CartLedger CartProofs Samples.





(** The scenario of C2: two [addToCart] calls for [{id: 1, price: 10}] on the
    empty cart leave exactly [[{id: 1, price: 10, quantity: 2}]]. *)
Lemma addToCart_twice_scenario `{Coercions} :
  run [AddToCart product_1; AddToCart product_1] []
  = Normal [ [("id", VNum 1); ("price", VNum 10); ("quantity", VNum 2)] ].
Proof. reflexivity. Qed.

(** C2, at the failing input: [addToCart(undefined)] on the empty cart
    appends [{quantity: 1}], an entry whose id is undefined; the next
    [addToCart(undefined)] finds it ([x?.id === product?.id]) and then reads
    [product.id] in the callback of [map], which throws.  The claim has the
    quantity of that entry go from 1 to 2. *)
Theorem addToCart_without_product_throws `{Coercions} :
  addToCart VUndefined [] = Normal [ [("quantity", VNum 1)] ]
  /\ addToCart VUndefined [ [("quantity", VNum 1)] ] = TypeError
  /\ addToCart VNull [ [("quantity", VNum 1)] ] = TypeError
  /\ run [AddToCart VUndefined; AddToCart VUndefined] [] = TypeError.
Proof. repeat split; reflexivity. Qed.

Lemma kept_entries_bound (k : value) (c' c : cart) :
  c' `sublist_of` c ->
  (forall x, In x c' -> strict_eq (get x "id") k = false) ->
  length c' + count_key k c <= length c.
Proof.
  induction 1 as [|x l1 l2 Hsub IH|x l1 l2 Hsub IH]; intros Hkept; simpl.
  - lia.
  - rewrite (Hkept x) by now left.
    specialize (IH (fun y Hy => Hkept y (or_intror Hy))). lia.
  - specialize (IH Hkept). destruct (strict_eq (get x "id") k); lia.
Qed.

(** The three facts C8 states about a removal leave no other result: a
    sublist of the cart that holds no matching entry and is shorter than the
    cart by the number of matching entries is what [removeFromCart] returns. *)
Lemma removal_determined (k : value) (c' c : cart) :
  c' `sublist_of` c ->
  (forall x, In x c' -> strict_eq (get x "id") k = false) ->
  length c' + count_key k c = length c ->
  c' = removeFromCart k c.
Proof.
  induction 1 as [|x l1 l2 Hsub IH|x l1 l2 Hsub IH]; intros Hkept Hlen; simpl in *.
  - reflexivity.
  - rewrite (Hkept x) in * by now left. simpl. f_equal.
    apply IH; [intros y Hy; apply Hkept; now right | lia].
  - fold (removeFromCart k l2).
    pose proof (kept_entries_bound k l1 l2 Hsub Hkept) as Hbound.
    destruct (strict_eq (get x "id") k); simpl; [apply IH; [assumption|lia]|lia].
Qed.

(** C8: [removeFromCart(id)] removes exactly the entries whose id is [===]
    to [id]: the result is the cart with those entries dropped and every
    other entry kept as it was, in its place and as often as it occurred, so
    the cart shrinks by the number of matching entries.  [updateQuantity(id,
    q)] keeps every entry in place, gives the entries whose id is [===] to
    [id] the quantity [q] without touching their other properties, and
    leaves every other entry as it was. *)
Theorem remove_and_update_frame (productId quantity : value) (c : cart) :
  removeFromCart productId c = entries_without productId c /\
  length (removeFromCart productId c) + count_key productId c = length c /\
  (forall x, In x (removeFromCart productId c) <->
             In x c /\ strict_eq (get x "id") productId = false) /\
  removeFromCart productId c `sublist_of` c /\
  Forall2 (updated_entry productId quantity) c (updateQuantity productId quantity c).
Proof.
  split; [|split; [|split; [|split]]].
  - induction c as [|x c IH]; simpl; [reflexivity|].
    fold (removeFromCart productId c).
    destruct (strict_eq (get x "id") productId); simpl; now rewrite IH.
  - induction c as [|x c IH]; simpl; [reflexivity|].
    fold (removeFromCart productId c).
    destruct (strict_eq (get x "id") productId); simpl; lia.
  - intros x. unfold removeFromCart. rewrite filter_In, negb_true_iff. reflexivity.
  - induction c as [|x c IH]; simpl; [constructor|].
    destruct (strict_eq (get x "id") productId); simpl;
      [now apply sublist_cons | now apply sublist_skip].
  - induction c as [|x c IH]; simpl; constructor; [|exact IH].
    unfold updated_entry. destruct (strict_eq (get x "id") productId); [|reflexivity].
    split; [apply get_set_prop_same|].
    intros k Hk. now apply lookup_set_prop_other.
Qed.

Lemma num_or_zero_not_nan (n : float) : PrimFloat.is_nan (num_or_zero n) = false.
Proof.
  unfold num_or_zero, ToBoolean, PrimFloat.is_nan.
  destruct (PrimFloat.eqb n n) eqn:E.
  - destruct (negb (PrimFloat.eqb n 0)); simpl; [now rewrite E|reflexivity].
  - rewrite andb_false_r. reflexivity.
Qed.

Lemma getCartTotal_from `{Coercions} (c : cart) (start : float) :
  fold_left
    (fun sum item =>
       (sum + num_or_zero (ToNumber (get item "price"))
              * num_or_zero (ToNumber (get item "quantity")))%float) c start
  = fold_left (fun sum t => (sum + t)%float) (map line_total c) start.
Proof.
  revert start. induction c as [|x c IH]; intros start; simpl; [reflexivity|].
  apply IH.
Qed.

(** The total of two one-entry carts, under any conversions. *)
Lemma getCartTotal_of_true_and_infinity `{Coercions} :
  getCartTotal [ [("price", VBool true); ("quantity", VNum 3)] ] = 3%float
  /\ getCartTotal [ [("price", VNum infinity); ("quantity", VNum 0)] ] = nan.
Proof. split; reflexivity. Qed.

(** C10, as stated, fails twice.  A price of [true] is not a number, yet
    [Number(true)] is 1 and the entry counts for its quantity, not for 0.
    And the total is [NaN] for the one entry [{price: Infinity, quantity: 0}],
    whose price and quantity are both numbers. *)
Lemma getCartTotal_counterexample :
  @getCartTotal sample_coercions [ [("price", VBool true); ("quantity", VNum 3)] ]
  = 3%float
  /\ @getCartTotal sample_coercions [ [("price", VNum infinity); ("quantity", VNum 0)] ]
     = nan.
Proof. exact (@getCartTotal_of_true_and_infinity sample_coercions). Qed.

(** C10 (amended): [getCartTotal()] is the floating-point sum, from 0 and in
    cart order, of [N(price) * N(quantity)] over the entries, where
    [N(v) = Number(v) || 0] is never [NaN]: a missing field, undefined, null,
    false, [NaN] and a string that converts to [NaN] count as 0, true counts
    as 1, and a number that is neither zero nor [NaN] as itself.  [isCartEmpty()] is true exactly when the cart
    has no entries. *)
Theorem getCartTotal_sums_counted `{Coercions} (c : cart) :
  getCartTotal c = fold_left (fun sum t => (sum + t)%float) (map line_total c) 0%float /\
  (forall v, PrimFloat.is_nan (counted v) = false) /\
  (forall x k, lookup_prop k x = None -> counted (get x k) = 0%float) /\
  counted VUndefined = 0%float /\
  counted VNull = 0%float /\
  counted (VBool false) = 0%float /\
  counted (VNum nan) = 0%float /\
  counted (VBool true) = 1%float /\
  (forall n, ToBoolean (VNum n) = true -> counted (VNum n) = n) /\
  (forall s, PrimFloat.is_nan (StringToNumber s) = true -> counted (VStr s) = 0%float) /\
  (isCartEmpty c = true <-> c = []).
Proof.
  split; [apply getCartTotal_from|].
  split; [intros v; apply num_or_zero_not_nan|].
  split; [intros x k Hk; unfold get; now rewrite Hk|].
  do 5 (split; [reflexivity|]).
  split; [|split].
  - intros n Hn. unfold counted, ToNumber, ToPrimitive, num_or_zero. now rewrite Hn.
  - intros s Hs. unfold counted, ToNumber, ToPrimitive, num_or_zero, ToBoolean.
    unfold PrimFloat.is_nan in Hs. apply negb_true_iff in Hs.
    now rewrite Hs, andb_false_r.
  - destruct c; simpl; split; (reflexivity || discriminate).
Qed.

End CartClaims.

(** ** The claims about the wishlist *)
Module WishlistClaims.
Import JS JSFacts AdminHome Samples.

(** C3: when some entry of the wishlist has an id [===] to the product's,
    [addToWishlist(product)] returns the wishlist as it was: nothing is
    added. *)
Theorem addToWishlist_present_unchanged (product : value) (prev : wishlist) :
  (exists x, In x prev /\ strict_eq (get x "id") (get_opt product "id") = true) ->
  addToWishlist product prev = prev.
Proof.
  intros Hpresent. unfold addToWishlist.
  apply existsb_exists in Hpresent. now rewrite Hpresent.
Qed.

(** C3 at the wishlist [[{id: 1, price: 10, addedBy}]] and product
    [{id: 1, price: 10}]. *)
Lemma addToWishlist_present_unchanged_witness :
  addToWishlist product_1 [wished_1] = [wished_1].
Proof.
  apply (addToWishlist_present_unchanged product_1 [wished_1]).
  exists wished_1. split; [now left | reflexivity].
Defined.

Lemma index_key_not_addedBy (i : nat) : String.eqb (index_key i) "addedBy" = false.
Proof. unfold index_key. now destruct (Nat.to_uint i). Qed.

Lemma lookup_addedBy_indexed {A} (f : nat -> A -> string * value) (l : list A) :
  (forall i a, String.eqb (fst (f i a)) "addedBy" = false) ->
  lookup_prop "addedBy" (imap f l) = None.
Proof.
  revert f. induction l as [|a l IH]; intros f Hf; simpl; [reflexivity|].
  specialize (Hf 0 a) as H0. destruct (f 0 a) as [k v]. simpl in H0. rewrite H0.
  apply IH. intros i a'. apply Hf.
Qed.

(** Setting a property the object does not have appends it. *)
Lemma set_prop_fresh (k : string) (v : value) (o : obj) :
  lookup_prop k o = None -> set_prop k v o = o ++ [(k, v)].
Proof.
  induction o as [|[k' v'] o IH]; simpl; [reflexivity|].
  destruct (String.eqb k' k); [discriminate|]. intros Hnone. now rewrite IH.
Qed.

(** Setting a property keeps the keys the object had, in their order. *)
Lemma set_prop_keeps_keys (k : string) (v : value) (o : obj) :
  map fst o `prefix_of` map fst (set_prop k v o).
Proof.
  induction o as [|[k' v'] o IH]; simpl; [apply prefix_nil|].
  destruct (String.eqb k' k) eqn:E; simpl.
  - apply String.eqb_eq in E. subst k'. reflexivity.
  - now apply prefix_cons.
Qed.

(** C9: when no entry of the wishlist has an id [===] to the product's,
    [addToWishlist(product)] puts one new entry in front of the unchanged
    wishlist.  The new entry carries [addedBy], equal to [adminUser], and
    apart from it the product's own properties: for an object, every
    property of the product with its value and in its place ([addedBy] comes
    last when the product has none); for an array or a string, its elements
    or code units under their indices; for any other product, nothing. *)
Theorem addToWishlist_absent_prepends (product : value) (prev : wishlist) :
  (forall x, In x prev -> strict_eq (get x "id") (get_opt product "id") = false) ->
  exists e,
    addToWishlist product prev = e :: prev /\
    get e "addedBy" = adminUser /\
    match product with
    | VObj _ props =>
        e = set_prop "addedBy" adminUser props /\
        (forall k, k <> "addedBy" -> lookup_prop k e = lookup_prop k props) /\
        map fst props `prefix_of` map fst e /\
        (lookup_prop "addedBy" props = None -> e = props ++ [("addedBy", adminUser)])
    | VArr _ elems =>
        e = imap (fun i x => (index_key i, x)) elems ++ [("addedBy", adminUser)]
    | VStr s =>
        e = imap (fun i x => (index_key i, x)) (string_chars s)
            ++ [("addedBy", adminUser)]
    | VUndefined | VNull | VBool _ | VNum _ => e = [("addedBy", adminUser)]
    end.
Proof.
  intros Habsent. exists (set_prop "addedBy" adminUser (own_props product)).
  split; [|split; [apply get_set_prop_same|]].
  - unfold addToWishlist.
    destruct (existsb _ prev) eqn:E; [|reflexivity].
    apply existsb_exists in E as (x & Hx & Hid).
    rewrite (Habsent x Hx) in Hid. discriminate.
  - destruct product as [| | | | |r props|r elems]; simpl; try reflexivity.
    + apply set_prop_fresh, lookup_addedBy_indexed.
      intros i a. apply index_key_not_addedBy.
    + split; [reflexivity|]. split; [|split].
      * intros k Hk. now apply lookup_set_prop_other.
      * apply set_prop_keeps_keys.
      * apply set_prop_fresh.
    + apply set_prop_fresh, lookup_addedBy_indexed.
      intros i a. apply index_key_not_addedBy.
Qed.

(** C9 at the wishlist [[{id: 1, ...}]] and product [{id: 2, price: 4}]: the
    new entry is [{id: 2, price: 4, addedBy}]. *)
Lemma addToWishlist_absent_prepends_witness :
  exists e,
    addToWishlist product_2 [wished_1] = e :: [wished_1] /\
    get e "addedBy" = adminUser /\
    e = set_prop "addedBy" adminUser [("id", VNum 2); ("price", VNum 4)] /\
    (forall k, k <> "addedBy" ->
       lookup_prop k e = lookup_prop k [("id", VNum 2); ("price", VNum 4)]) /\
    map fst [("id", VNum 2); ("price", VNum 4)] `prefix_of` map fst e /\
    (lookup_prop "addedBy" [("id", VNum 2); ("price", VNum 4)] = None ->
     e = [("id", VNum 2); ("price", VNum 4)] ++ [("addedBy", adminUser)]).
Proof.
  apply (addToWishlist_absent_prepends product_2 [wished_1]).
  intros x [<-|[]]. reflexivity.
Defined.

End WishlistClaims.

(** ** The claims about [RemoteErrorBoundary] *)
Module BoundaryClaims.
Import JS RemoteErrorBoundary Samples.

(** After a truthy error (an [Error] object, a non-empty string, ...) has been
    captured, the children are not rendered again, so nothing can throw: the
    state never changes and every render gives the fallback with the title
    and the description of that error. *)
Lemma truthy_error_is_terminal `{Coercions} (title : string) (e : value)
    (evs : list event) (st : state) :
  ToBoolean e = true ->
  steps (getDerivedStateFromError e) evs = Some st ->
  st = getDerivedStateFromError e /\
  Forall (fun ev => ev = Render) evs /\
  render title st = Fallback (title +:+ " crashed") (description e).
Proof.
  intros He. induction evs as [|ev evs IH]; simpl.
  - intros [= <-]. split; [reflexivity|]. split; [constructor|].
    unfold render. simpl. now rewrite He.
  - destruct ev as [|e']; simpl.
    + intros Hsteps. destruct (IH Hsteps) as (-> & Hall & Hrender).
      split; [reflexivity|]. split; [now constructor|assumption].
    + rewrite He. simpl. discriminate.
Qed.

(** C5, at the failing input: a child throws [undefined] (or [null], or any
    other falsy value).  The captured state then holds a falsy [error], the
    test [!this.state.error] succeeds, and [render] returns the children
    again instead of the fallback; the child may throw again. *)
Theorem falsy_error_renders_children_again `{Coercions} :
  render "Wishlist" (getDerivedStateFromError VUndefined) = Children
  /\ render "Wishlist" (getDerivedStateFromError VNull) = Children
  /\ render "Wishlist" (getDerivedStateFromError (VStr EmptyString)) = Children
  /\ steps initial [ChildThrows VUndefined; Render; ChildThrows VUndefined; Render]
     = Some {| error := VUndefined |}.
Proof. repeat split; reflexivity. Qed.

(** C6, as stated, fails on what the collaborator is given: with
    [window.zipy] present, [logException] is called with the error alone;
    the title goes to [console.error] only. *)
Lemma zipy_is_not_given_the_title :
  componentDidCatch "Wishlist"
    (Some {| logException := Some (fun _ => Normal tt) |}) (VStr "boom")
  = ([ConsoleError [VStr "[admin-host] Remote crashed:"; VStr "Wishlist"; VStr "boom"];
      ZipyLogException [VStr "boom"]],
     Normal tt).
Proof. reflexivity. Qed.

(** C6 (amended): on every contained failure the boundary first logs the
    title and the error with [console.error]; when [window.zipy] is absent it
    does nothing more and raises nothing; when [window.zipy] is present with
    a [logException] function, it calls it once, with the error alone, after
    the log. *)
Theorem componentDidCatch_reports (title : string) (e : value) :
  componentDidCatch title None e
  = ([ConsoleError [VStr "[admin-host] Remote crashed:"; VStr title; e]], Normal tt)
  /\ (forall f,
        componentDidCatch title (Some {| logException := Some f |}) e
        = ([ConsoleError [VStr "[admin-host] Remote crashed:"; VStr title; e];
            ZipyLogException [e]],
           f [e]))
  /\ (forall z,
        head (fst (componentDidCatch title z e))
        = Some (ConsoleError [VStr "[admin-host] Remote crashed:"; VStr title; e])).
Proof.
  split; [reflexivity|]. split; [reflexivity|].
  intros [[[f|]]|]; reflexivity.
Qed.

(** The guard tests [window.zipy], not [window.zipy.logException]: a truthy
    [window.zipy] without that function makes [componentDidCatch] throw. *)
Lemma zipy_without_logException_throws (title : string) (e : value) :
  snd (componentDidCatch title (Some {| logException := None |}) e) = TypeError.
Proof. reflexivity. Qed.

End BoundaryClaims.

(** ** The claim about the rendered grid *)
Module GridClaims.
Import Grid.

(** What the map built from [items] gives for an id of the select control. *)
Lemma byId_items (i : string) :
  (fun it => render it tt) <$> (byId items !! i) = Lazy <$> remote_of_option i.
Proof.
  unfold byId, items, remote_of_option. simpl.
  rewrite !lookup_insert, lookup_empty.
  repeat case_decide; subst; try reflexivity.
  repeat match goal with
         | Hne : ?a <> i |- _ =>
             apply not_eq_sym, String.eqb_neq in Hne; rewrite Hne
         end.
  reflexivity.
Qed.

Lemma remotes_of_selected (selected : list string) :
  concat (map (fun it => remotes_of (render it tt)) (selectedItems selected))
  = omap remote_of_option selected.
Proof.
  unfold selectedItems. induction selected as [|i selected IH]; [reflexivity|].
  pose proof (byId_items i) as Hi. cbn [omap list_omap].
  destruct (byId items !! i) as [it|], (remote_of_option i) as [r|];
    cbn in Hi; try discriminate; [|exact IH].
  injection Hi as Hi. cbn [map concat]. rewrite Hi, IH. reflexivity.
Qed.

Lemma grid_shape (selected : list string) :
  Forall (fun e => exists key title r,
              e = Boundary key title (SectionPaper title (Suspense Loader (Lazy r))))
         (grid selected).
Proof.
  unfold grid. constructor; [now eexists _, _, _|].
  unfold selectedItems. induction selected as [|i selected IH]; simpl; [constructor|].
  pose proof (byId_items i) as Hi.
  destruct (byId items !! i) as [it|]; simpl in *; [|assumption].
  constructor; [|assumption].
  destruct (remote_of_option i) as [r|]; simpl in Hi; [|discriminate].
  injection Hi as ->. now eexists _, _, _.
Qed.

(** C4: for every value of the multi-select, the remotes rendered in the grid
    are the Wishlist remote followed by the remotes of the selected options,
    so a remote is rendered exactly when it is the Wishlist or is selected;
    and every child of the grid is one error boundary around one section
    around one [Suspense] around one lazy remote. *)
Theorem grid_renders_wishlist_and_selected (selected : list string) :
  rendered_remotes selected = RemoteWishlist :: omap remote_of_option selected /\
  (forall r, In r (rendered_remotes selected) <->
             r = RemoteWishlist \/
             exists i, In i selected /\ remote_of_option i = Some r) /\
  Forall (fun e => exists key title r,
              e = Boundary key title (SectionPaper title (Suspense Loader (Lazy r))))
         (grid selected) /\
  length (grid selected) = length (rendered_remotes selected).
Proof.
  assert (Hlist : rendered_remotes selected
                  = RemoteWishlist :: omap remote_of_option selected).
  { unfold rendered_remotes, grid. cbn [map concat remotes_of app]. f_equal.
    rewrite map_map. apply remotes_of_selected. }
  split; [exact Hlist|]. split; [|split; [apply grid_shape|]].
  - intros r. rewrite Hlist. simpl. rewrite <- list_elem_of_In, list_elem_of_omap.
    split.
    + intros [<-|(i & Hi & Hr)]; [now left|].
      right. exists i. now rewrite <- list_elem_of_In.
    + intros [->|(i & Hi & Hr)]; [now left|].
      right. exists i. now rewrite list_elem_of_In.
  - rewrite Hlist. unfold grid. cbn [length]. f_equal. rewrite length_map.
    clear Hlist. unfold selectedItems.
    induction selected as [|i selected IH]; [reflexivity|].
    pose proof (byId_items i) as Hi. cbn [omap list_omap].
    destruct (byId items !! i), (remote_of_option i); cbn in Hi;
      try discriminate; [cbn [length]; now rewrite IH | exact IH].
Qed.

End GridClaims.

(** ** The claim about the remotes of the webpack configuration *)
Module WebpackClaims.
Import Webpack.

Lemma defaults_not_empty (r : remote_name) :
  production_default r <> EmptyString /\ development_default r <> EmptyString.
Proof. destruct r; split; discriminate. Qed.

(** C7, as stated, fails on an override that is defined and empty: [??] lets
    the empty string through, the endpoint is empty, and the configuration is
    built all the same. *)
Lemma empty_override_counterexample :
  remoteUrl {[ "SHOPHUB_AUTH_REMOTE_URL" := EmptyString ]} (Some "production") auth
  = EmptyString
  /\ mfRemotes {[ "SHOPHUB_AUTH_REMOTE_URL" := EmptyString ]} (Some "production") auth
     = "auth@".
Proof. split; reflexivity. Qed.

(** C7 (amended): for every remote and every environment, the URL is the
    value of the remote's environment variable whenever that variable is
    defined, the empty string included; otherwise it is the production
    default when [argv.mode] is ['production'] and the local development
    default in every other mode.  Both defaults of every remote are
    non-empty, so an undefined variable never gives an empty endpoint, and
    the resolution has no failing case. *)
Theorem remoteUrl_resolution (env : gmap string string) (mode : option string)
    (r : remote_name) :
  (forall u, env !! env_var r = Some u -> remoteUrl env mode r = u) /\
  (env !! env_var r = None ->
     remoteUrl env mode r
     = (if isProd mode then production_default r else development_default r) /\
     remoteUrl env mode r <> EmptyString) /\
  (isProd mode = true <-> mode = Some "production") /\
  mfRemotes env mode r = name_of r +:+ "@" +:+ remoteUrl env mode r.
Proof.
  unfold remoteUrl. split; [|split; [|split]].
  - intros u ->. reflexivity.
  - intros ->. simpl. split; [reflexivity|].
    destruct (defaults_not_empty r). now destruct (isProd mode).
  - destruct mode as [m|]; simpl; [|split; discriminate].
    rewrite String.eqb_eq. split; [now intros -> | now intros [= ->]].
  - reflexivity.
Qed.

End WebpackClaims.

(** ** More about the cart callbacks (theme.js 272-289, 310-312) *)
Module CartExtras.
Import JS JSFacts AdminHome CartLedger CartProofs HostRuns Samples.

Lemma strict_eq_undefined (a : value) : strict_eq a VUndefined = true -> a = VUndefined.
Proof. now destruct a. Qed.

Lemma get_opt_nullish (product : value) (k : string) :
  is_nullish product = true -> get_opt product k = VUndefined.
Proof. now destruct product. Qed.

(** The two ways [addToCart] returns. *)
Lemma addToCart_returns `{Coercions} (product : value) (prev next : cart) :
  addToCart product prev = Normal next ->
  (List.find (fun x => strict_eq (get x "id") (get_opt product "id")) prev = None /\
   next = prev ++ [set_prop "quantity" (VNum 1) (own_props product)]) \/
  (is_nullish product = false /\ next = map (bump (get_opt product "id")) prev).
Proof.
  intros Hadd.
  destruct (List.find (fun x => strict_eq (get x "id") (get_opt product "id")) prev)
    as [x|] eqn:Hfind.
  - right. destruct (is_nullish product) eqn:Hp.
    + rewrite (addToCart_present_nullish _ _ _ Hfind Hp) in Hadd. discriminate.
    + rewrite (addToCart_present _ _ _ Hfind Hp) in Hadd. now injection Hadd as <-.
  - left. rewrite (addToCart_absent _ _ Hfind) in Hadd. now injection Hadd as <-.
Qed.

(** X1: the updater of [addToCart] throws exactly when the product is null
    or undefined and the cart already holds an entry whose id is undefined;
    in every other case it returns a cart. *)
Theorem addToCart_throws_iff `{Coercions} (product : value) (prev : cart) :
  addToCart product prev = TypeError <->
  is_nullish product = true /\ exists x, In x prev /\ get x "id" = VUndefined.
Proof.
  split.
  - intros Hthrow.
    destruct (List.find (fun x => strict_eq (get x "id") (get_opt product "id")) prev)
      as [x|] eqn:Hfind.
    + destruct (is_nullish product) eqn:Hp.
      * split; [reflexivity|]. apply find_some in Hfind as [Hx Hid].
        rewrite (get_opt_nullish _ _ Hp) in Hid.
        exists x. split; [assumption|]. now apply strict_eq_undefined.
      * rewrite (addToCart_present _ _ _ Hfind Hp) in Hthrow. discriminate.
    + rewrite (addToCart_absent _ _ Hfind) in Hthrow. discriminate.
  - intros [Hp (x & Hx & Hid)].
    destruct (List.find (fun x => strict_eq (get x "id") (get_opt product "id")) prev)
      as [y|] eqn:Hfind.
    + exact (addToCart_present_nullish _ _ _ Hfind Hp).
    + pose proof (find_none _ _ Hfind x Hx) as Hno. simpl in Hno.
      rewrite Hid, (get_opt_nullish _ _ Hp) in Hno. discriminate.
Qed.

(** X2: on a cart none of whose entries has an id [===] to the argument,
    [removeFromCart] and [updateQuantity] return the cart as it was. *)
Theorem absent_id_is_left_alone (productId quantity : value) (c : cart) :
  (forall x, In x c -> strict_eq (get x "id") productId = false) ->
  removeFromCart productId c = c /\ updateQuantity productId quantity c = c.
Proof.
  intros Habsent. induction c as [|x c IH]; [split; reflexivity|].
  destruct IH as [IHr IHu]; [intros y Hy; apply Habsent; now right|].
  unfold removeFromCart, updateQuantity in *. simpl.
  rewrite (Habsent x) by now left. simpl. now rewrite IHr, IHu.
Qed.

(** X2 on the cart [[{id: 1, price: 10, quantity: 2}]] and id 2. *)
Lemma absent_id_is_left_alone_witness :
  removeFromCart (VNum 2) [ [("id", VNum 1); ("price", VNum 10); ("quantity", VNum 2)] ]
  = [ [("id", VNum 1); ("price", VNum 10); ("quantity", VNum 2)] ]
  /\ updateQuantity (VNum 2) (VNum 5)
       [ [("id", VNum 1); ("price", VNum 10); ("quantity", VNum 2)] ]
     = [ [("id", VNum 1); ("price", VNum 10); ("quantity", VNum 2)] ].
Proof.
  apply (absent_id_is_left_alone (VNum 2) (VNum 5)
           [ [("id", VNum 1); ("price", VNum 10); ("quantity", VNum 2)] ]).
  intros x [<-|[]]. reflexivity.
Defined.

Lemma set_prop_twice (k : string) (v w : value) (o : obj) :
  set_prop k w (set_prop k v o) = set_prop k w o.
Proof.
  induction o as [|[k' v'] o IH]; simpl.
  - now rewrite String.eqb_refl.
  - destruct (String.eqb k' k) eqn:E; simpl.
    + now rewrite String.eqb_refl.
    + now rewrite E, IH.
Qed.

(** X3: of two [updateQuantity] calls for the same id the second one wins:
    the cart is the one the second call alone would give. *)
Theorem updateQuantity_last_wins (productId q1 q2 : value) (c : cart) :
  updateQuantity productId q2 (updateQuantity productId q1 c)
  = updateQuantity productId q2 c.
Proof.
  unfold updateQuantity. rewrite map_map. apply map_ext. intros x.
  destruct (strict_eq (get x "id") productId) eqn:E.
  - rewrite get_set_prop_other by discriminate. rewrite E. apply set_prop_twice.
  - now rewrite E.
Qed.

(** X4: [updateQuantity] never adds or drops an entry and never changes an
    id, whatever the quantity (zero, negative, not a number): the ids of the
    cart, in order, are as before, and so is [isCartEmpty]. *)
Theorem updateQuantity_keeps_entries (productId quantity : value) (c : cart) :
  map (fun x => get x "id") (updateQuantity productId quantity c)
  = map (fun x => get x "id") c /\
  isCartEmpty (updateQuantity productId quantity c) = isCartEmpty c.
Proof.
  split.
  - unfold updateQuantity. rewrite map_map. apply map_ext. intros x.
    destruct (strict_eq (get x "id") productId); [|reflexivity].
    now apply get_set_prop_other.
  - unfold isCartEmpty, updateQuantity. now rewrite length_map.
Qed.

Lemma find_absent (k : value) (c : cart) :
  (forall x, In x c -> strict_eq (get x "id") k = false) ->
  List.find (fun x => strict_eq (get x "id") k) c = None.
Proof.
  induction c as [|x c IH]; intros Habsent; simpl; [reflexivity|].
  rewrite (Habsent x) by now left. apply IH. intros y Hy. apply Habsent. now right.
Qed.

Lemma filter_absent (k : value) (c : cart) :
  (forall x, In x c -> strict_eq (get x "id") k = false) ->
  List.filter (fun x => negb (strict_eq (get x "id") k)) c = c.
Proof.
  induction c as [|x c IH]; intros Habsent; simpl; [reflexivity|].
  rewrite (Habsent x) by now left. simpl. f_equal. apply IH.
  intros y Hy. apply Habsent. now right.
Qed.

(** X5: an [addToCart] for a product the cart does not hold, followed by a
    [removeFromCart] of that product's id, gives the cart back as it was,
    provided the id is [===] to itself (it is not [NaN]). *)
Theorem addToCart_then_remove `{Coercions} (product : value) (c : cart) :
  (forall x, In x c -> strict_eq (get x "id") (get_opt product "id") = false) ->
  strict_eq (get_opt product "id") (get_opt product "id") = true ->
  exists next,
    addToCart product c = Normal next /\
    removeFromCart (get_opt product "id") next = c.
Proof.
  intros Habsent Hrefl. eexists. split.
  - apply addToCart_absent, find_absent, Habsent.
  - unfold removeFromCart. rewrite List.filter_app, (filter_absent _ _ Habsent). simpl.
    rewrite get_set_prop_other by discriminate.
    rewrite get_own_props_id, Hrefl. simpl. apply app_nil_r.
Qed.

(** X5 on the empty cart and the product [{id: 1, price: 10}]. *)
Lemma addToCart_then_remove_witness :
  exists next,
    @addToCart sample_coercions product_1 [] = Normal next /\
    removeFromCart (get_opt product_1 "id") next = [].
Proof.
  apply (@addToCart_then_remove sample_coercions product_1 []).
  - intros x [].
  - reflexivity.
Defined.

(** X6: removals commute, and removing the same id twice is removing it
    once. *)
Theorem removeFromCart_commutes (a b : value) (c : cart) :
  removeFromCart a (removeFromCart b c) = removeFromCart b (removeFromCart a c) /\
  removeFromCart a (removeFromCart a c) = removeFromCart a c.
Proof.
  unfold removeFromCart. split.
  - induction c as [|x c IH]; simpl; [reflexivity|].
    destruct (strict_eq (get x "id") a) eqn:Ea, (strict_eq (get x "id") b) eqn:Eb;
      simpl; rewrite ?Ea, ?Eb; simpl; now rewrite IH.
  - induction c as [|x c IH]; simpl; [reflexivity|].
    destruct (strict_eq (get x "id") a) eqn:Ea; simpl; rewrite ?Ea; simpl; now rewrite IH.
Qed.

Lemma index_key_not_price (i : nat) : String.eqb (index_key i) "price" = false.
Proof. unfold index_key. now destruct (Nat.to_uint i). Qed.

Lemma lookup_price_indexed {A} (f : nat -> A -> string * value) (l : list A) :
  (forall i a, String.eqb (fst (f i a)) "price" = false) ->
  lookup_prop "price" (imap f l) = None.
Proof.
  revert f. induction l as [|a l IH]; intros f Hf; simpl; [reflexivity|].
  specialize (Hf 0 a) as H0. destruct (f 0 a) as [k v]. simpl in H0. rewrite H0.
  apply IH. intros i a'. apply Hf.
Qed.

Lemma get_own_props_price (product : value) :
  get (own_props product) "price" = get_opt product "price".
Proof.
  destruct product; simpl; try reflexivity; unfold get;
    (rewrite lookup_price_indexed; [reflexivity | intros; apply index_key_not_price]).
Qed.

(** X7: adding a product the cart does not hold raises the total by
    [N(price) * 1], where [N(price) = Number(product?.price) || 0]: a product
    without a usable price adds [0 * 1]. *)
Theorem addToCart_raises_total `{Coercions} (product : value) (c : cart) :
  (forall x, In x c -> strict_eq (get x "id") (get_opt product "id") = false) ->
  exists next,
    addToCart product c = Normal next /\
    getCartTotal next
    = (getCartTotal c + counted (get_opt product "price") * 1)%float.
Proof.
  intros Habsent. eexists. split.
  - apply addToCart_absent, find_absent, Habsent.
  - unfold getCartTotal. rewrite fold_left_app. simpl.
    rewrite get_set_prop_other by discriminate.
    rewrite get_set_prop_same, get_own_props_price. reflexivity.
Qed.

(** X7 on the cart holding product 1 and the product [{id: 2, price: 4}]. *)
Lemma addToCart_raises_total_witness :
  exists next,
    @addToCart sample_coercions product_2
      [ [("id", VNum 1); ("price", VNum 10); ("quantity", VNum 2)] ] = Normal next /\
    @getCartTotal sample_coercions next
    = (@getCartTotal sample_coercions
         [ [("id", VNum 1); ("price", VNum 10); ("quantity", VNum 2)] ]
       + @counted sample_coercions (get_opt product_2 "price") * 1)%float.
Proof.
  apply (@addToCart_raises_total sample_coercions product_2
           [ [("id", VNum 1); ("price", VNum 10); ("quantity", VNum 2)] ]).
  intros x [<-|[]]. reflexivity.
Defined.

Lemma apply_op_numeric `{Coercions} (op : cart_op) (c next : cart) :
  apply_op op c = Normal next ->
  numeric_update op = true ->
  Forall (fun x => is_number (get x "quantity") = true) c ->
  Forall (fun x => is_number (get x "quantity") = true) next.
Proof.
  destruct op as [product|productId|productId quantity|]; simpl; intros Hop Hnum Hall.
  - apply addToCart_returns in Hop as [[_ ->]|[_ ->]].
    + apply Forall_app. split; [assumption|]. constructor; [|constructor].
      now rewrite get_set_prop_same.
    + rewrite List.Forall_map. eapply List.Forall_impl; [|exact Hall].
      intros x Hx. simpl in Hx. rewrite bump_quantity.
      destruct (strict_eq (get x "id") (get_opt product "id")); [|assumption].
      destruct (get x "quantity"); try discriminate. reflexivity.
  - injection Hop as <-. unfold removeFromCart.
    rewrite List.Forall_forall in *. intros x [Hx _]%filter_In. now apply Hall.
  - injection Hop as <-. unfold updateQuantity. rewrite List.Forall_map.
    eapply List.Forall_impl; [|exact Hall]. intros x Hx. simpl in Hx.
    destruct (strict_eq (get x "id") productId); [|assumption].
    now rewrite get_set_prop_same.
  - injection Hop as <-. constructor.
Qed.

(** X8: as long as every [updateQuantity] is passed a number, every entry of
    the cart has a number as its quantity after any run of calls from the
    empty cart: [addToCart] then adds 1 arithmetically and never
    concatenates. *)
Theorem quantities_stay_numbers `{Coercions} (ops : list cart_op) (c : cart) :
  run ops [] = Normal c ->
  forallb numeric_update ops = true ->
  Forall (fun x => is_number (get x "quantity") = true) c.
Proof.
  assert (Hgen : forall ops c0 c,
             run ops c0 = Normal c -> forallb numeric_update ops = true ->
             Forall (fun x => is_number (get x "quantity") = true) c0 ->
             Forall (fun x => is_number (get x "quantity") = true) c).
  { clear ops c. induction ops as [|op ops IH]; simpl; intros c0 c Hrun Hnum Hall.
    - now injection Hrun as <-.
    - apply andb_true_iff in Hnum as [Hop Hops].
      destruct (apply_op op c0) as [c1|] eqn:E; [|discriminate]. simpl in Hrun.
      eapply IH; [exact Hrun|exact Hops|]. eapply apply_op_numeric; eassumption. }
  intros Hrun Hnum. eapply Hgen; [exact Hrun|exact Hnum|constructor].
Qed.

(** X8 on: add product 1 twice, set its quantity to 7, add it once more. *)
Lemma quantities_stay_numbers_witness :
  Forall (fun x => is_number (get x "quantity") = true)
    [ [("id", VNum 1); ("price", VNum 10); ("quantity", VNum 8)] ].
Proof.
  apply (@quantities_stay_numbers sample_coercions
           [AddToCart product_1; AddToCart product_1;
            UpdateQuantity (VNum 1) (VNum 7); AddToCart product_1]
           [ [("id", VNum 1); ("price", VNum 10); ("quantity", VNum 8)] ]);
    reflexivity.
Defined.

Lemma forallb_product_given_false (ops : list cart_op) :
  forallb product_given ops = false ->
  exists product, In (AddToCart product) ops /\ is_nullish product = true.
Proof.
  induction ops as [|op ops IH]; simpl; [discriminate|].
  intros [Hop|Hops]%andb_false_iff.
  - destruct op as [product| | |]; simpl in Hop; try discriminate.
    exists product. split; [now left|]. now apply negb_false_iff.
  - destruct (IH Hops) as (product & Hin & Hp). exists product. split; [now right|exact Hp].
Qed.

(** X22: a run of cart calls, from any cart, can only throw if one of its
    [addToCart] calls was passed null or undefined; [removeFromCart],
    [updateQuantity] and [clearCart] never make a run fail. *)
Theorem run_throws_only_without_product `{Coercions} (ops : list cart_op) (c0 : cart) :
  run ops c0 = TypeError ->
  exists product, In (AddToCart product) ops /\ is_nullish product = true.
Proof.
  intros Hthrow. apply forallb_product_given_false.
  destruct (forallb product_given ops) eqn:E; [|reflexivity].
  destruct (run_returns ops c0 E) as [c Hc]. congruence.
Qed.

(** X22 on the run [addToCart(undefined); addToCart(undefined)] from the
    empty cart. *)
Lemma run_throws_only_without_product_witness :
  exists product,
    In (AddToCart product) [AddToCart VUndefined; AddToCart VUndefined] /\
    is_nullish product = true.
Proof.
  apply (@run_throws_only_without_product sample_coercions
           [AddToCart VUndefined; AddToCart VUndefined] []).
  reflexivity.
Defined.

End CartExtras.

(** ** More about the wishlist callbacks (theme.js 291-298) *)
Module WishlistExtras.
Import JS JSFacts AdminHome CartLedger CartProofs HostRuns Samples.

Lemma new_wish_id (product : value) :
  get (set_prop "addedBy" adminUser (own_props product)) "id" = get_opt product "id".
Proof. rewrite get_set_prop_other by discriminate. apply get_own_props_id. Qed.

Lemma existsb_absent (k : value) (w : wishlist) :
  existsb (fun x => strict_eq (get x "id") k) w = false <->
  forall x, In x w -> strict_eq (get x "id") k = false.
Proof.
  induction w as [|y w IH]; simpl.
  - split; [intros _ x []|reflexivity].
  - rewrite orb_false_iff, IH. split.
    + intros [Hy Hw] x [<-|Hx]; auto.
    + intros Hall. split; [apply Hall; now left|]. intros x Hx. apply Hall. now right.
Qed.

(** X9: after [addToWishlist(product)], [isInWishlist(k)] holds exactly when
    it held before or the product's id is [===] to [k]; in particular the
    product itself is then in the wishlist, unless its id is [NaN]. *)
Theorem isInWishlist_after_add (product k : value) (w : wishlist) :
  isInWishlist (addToWishlist product w) k
  = strict_eq (get_opt product "id") k || isInWishlist w k.
Proof.
  unfold addToWishlist, isInWishlist.
  destruct (existsb (fun x => strict_eq (get x "id") (get_opt product "id")) w) eqn:E.
  - destruct (strict_eq (get_opt product "id") k) eqn:Ek; [|reflexivity].
    simpl. apply existsb_exists in E as (x & Hx & Hid).
    apply existsb_exists. exists x. split; [assumption|].
    exact (strict_eq_trans _ _ _ Hid Ek).
  - simpl. now rewrite new_wish_id.
Qed.

(** X10: after [removeFromWishlist(j)], [isInWishlist(k)] holds exactly when
    it held before and [k] is not [===] to [j]: the removed id is gone and no
    other id is lost. *)
Theorem isInWishlist_after_remove (j k : value) (w : wishlist) :
  isInWishlist (removeFromWishlist j w) k
  = isInWishlist w k && negb (strict_eq k j).
Proof.
  unfold isInWishlist, removeFromWishlist.
  induction w as [|x w IH]; simpl; [reflexivity|].
  destruct (strict_eq (get x "id") j) eqn:Ej; simpl; rewrite IH;
    destruct (strict_eq (get x "id") k) eqn:Ek; simpl; try reflexivity.
  - rewrite (strict_eq_congr _ _ j Ek) in Ej. rewrite Ej. simpl.
    now rewrite andb_false_r.
  - rewrite (strict_eq_congr _ _ j Ek) in Ej. now rewrite Ej.
Qed.

(** X11: [addToWishlist] is idempotent on a product whose id is [===] to
    itself: a second call for the same product changes nothing.  (For an id
    that is [NaN] every call adds an entry.) *)
Theorem addToWishlist_idempotent (product : value) (w : wishlist) :
  strict_eq (get_opt product "id") (get_opt product "id") = true ->
  addToWishlist product (addToWishlist product w) = addToWishlist product w.
Proof.
  intros Hrefl. unfold addToWishlist at 2 3.
  destruct (existsb (fun x => strict_eq (get x "id") (get_opt product "id")) w) eqn:E.
  - unfold addToWishlist. now rewrite E.
  - unfold addToWishlist. simpl. now rewrite new_wish_id, Hrefl.
Qed.

(** X11 on the empty wishlist and the product [{id: 1, price: 10}]. *)
Lemma addToWishlist_idempotent_witness :
  addToWishlist product_1 (addToWishlist product_1 []) = addToWishlist product_1 [].
Proof. apply (addToWishlist_idempotent product_1 []). reflexivity. Defined.

Lemma apply_wishlist_op_keeps (op : wishlist_op) (w : wishlist) :
  unique_ids w = true /\ Forall (fun x => get x "addedBy" = adminUser) w ->
  unique_ids (apply_wishlist_op op w) = true /\
  Forall (fun x => get x "addedBy" = adminUser) (apply_wishlist_op op w).
Proof.
  intros [Huniq Hall]. destruct op as [product|productId|]; simpl.
  - unfold addToWishlist.
    destruct (existsb (fun x => strict_eq (get x "id") (get_opt product "id")) w) eqn:E;
      [now split|].
    split.
    + simpl. rewrite Huniq, andb_true_r. apply forallb_forall. intros y Hy.
      rewrite new_wish_id, strict_eq_sym.
      rewrite existsb_absent in E. now rewrite (E y Hy).
    + constructor; [apply get_set_prop_same|assumption].
  - split; [now apply unique_ids_filter|].
    unfold removeFromWishlist. rewrite List.Forall_forall in *.
    intros x [Hx _]%filter_In. now apply Hall.
  - split; [reflexivity|constructor].
Qed.

(** X12: after any run of [addToWishlist] / [removeFromWishlist] /
    [clearWishlist] calls from the empty wishlist, no two entries have [===]
    ids and every entry carries [addedBy], equal to [adminUser]. *)
Theorem wishlist_run_invariant (ops : list wishlist_op) :
  unique_ids (run_wishlist ops []) = true /\
  Forall (fun x => get x "addedBy" = adminUser) (run_wishlist ops []).
Proof.
  unfold run_wishlist.
  assert (Hgen : forall w,
             unique_ids w = true /\ Forall (fun x => get x "addedBy" = adminUser) w ->
             unique_ids (fold_left (fun w op => apply_wishlist_op op w) ops w) = true /\
             Forall (fun x => get x "addedBy" = adminUser)
                    (fold_left (fun w op => apply_wishlist_op op w) ops w)).
  { induction ops as [|op ops IH]; simpl; intros w Hw; [assumption|].
    apply IH, apply_wishlist_op_keeps, Hw. }
  apply Hgen. split; [reflexivity|constructor].
Qed.

(** X13: an [addToWishlist] for a product the wishlist does not hold,
    followed by a [removeFromWishlist] of that product's id, gives the
    wishlist back as it was, provided the id is [===] to itself. *)
Theorem addToWishlist_then_remove (product : value) (w : wishlist) :
  (forall x, In x w -> strict_eq (get x "id") (get_opt product "id") = false) ->
  strict_eq (get_opt product "id") (get_opt product "id") = true ->
  removeFromWishlist (get_opt product "id") (addToWishlist product w) = w.
Proof.
  intros Habsent Hrefl. unfold addToWishlist.
  rewrite (proj2 (existsb_absent _ _) Habsent).
  unfold removeFromWishlist. simpl. rewrite new_wish_id, Hrefl. simpl.
  induction w as [|x w IH]; simpl; [reflexivity|].
  rewrite (Habsent x) by now left. simpl. f_equal. apply IH.
  intros y Hy. apply Habsent. now right.
Qed.

(** X13 on the wishlist holding product 1 and the product [{id: 2, price: 4}]. *)
Lemma addToWishlist_then_remove_witness :
  removeFromWishlist (get_opt product_2 "id") (addToWishlist product_2 [wished_1])
  = [wished_1].
Proof.
  apply (addToWishlist_then_remove product_2 [wished_1]).
  - intros x [<-|[]]. reflexivity.
  - reflexivity.
Defined.

End WishlistExtras.

(** ** More about [RemoteErrorBoundary] (theme.js 209-239) *)
Module BoundaryExtras.
Import JS RemoteErrorBoundary BoundaryTrace Samples.

Lemma last_any_default {A} (l : list A) (a d d' : A) :
  List.last (a :: l) d = List.last (a :: l) d'.
Proof.
  revert a. induction l as [|b l IH]; intros a; [reflexivity|].
  change (List.last (b :: l) d = List.last (b :: l) d'). apply IH.
Qed.

Lemma steps_from `{Coercions} (evs : list event) (st0 st : state) :
  steps st0 evs = Some st ->
  error st = List.last (thrown evs) (error st0) /\
  Forall falsy (removelast (thrown evs)) /\
  (thrown evs <> [] -> falsy (error st0)).
Proof.
  revert st0. induction evs as [|ev evs IH]; intros st0; simpl.
  - intros [= <-]. split; [reflexivity|]. split; [constructor|]. congruence.
  - destruct ev as [|e]; simpl.
    + intros Hsteps. exact (IH _ Hsteps).
    + destruct (ToBoolean (error st0)) eqn:E0; simpl; [discriminate|].
      intros Hsteps. destruct (IH _ Hsteps) as (Herr & Hall & Hfirst).
      unfold thrown in *. cbn [omap list_omap].
      fold (thrown evs) in *. simpl in Herr.
      destruct (thrown evs) as [|e' t] eqn:Et.
      * simpl. split; [exact Herr|]. split; [constructor|]. intros _. exact E0.
      * split; [rewrite Herr; apply last_any_default|]. split; [|intros _; exact E0].
        change (removelast (e :: e' :: t)) with (e :: removelast (e' :: t)).
        constructor; [|exact Hall]. apply Hfirst. discriminate.
Qed.

(** X14: in the life of a boundary, from its construction on, the error held
    in the state is the last value a child threw ([null] when none did), and
    every value thrown before that one was falsy: once a truthy error is
    captured nothing is thrown again.  A render shows the children exactly
    when every value thrown so far was falsy. *)
Theorem boundary_holds_last_thrown `{Coercions} (title : string) (evs : list event)
    (st : state) :
  steps initial evs = Some st ->
  error st = List.last (thrown evs) VNull /\
  Forall falsy (removelast (thrown evs)) /\
  (render title st = Children <-> Forall falsy (thrown evs)).
Proof.
  intros Hsteps. destruct (steps_from _ _ _ Hsteps) as (Herr & Hall & _).
  simpl in Herr. split; [exact Herr|]. split; [exact Hall|].
  unfold render. rewrite Herr.
  destruct (thrown evs) as [|e t] eqn:Et using rev_ind.
  - simpl. split; [constructor|reflexivity].
  - clear IHt. rewrite last_last. rewrite removelast_last in Hall.
    destruct (ToBoolean e) eqn:E; simpl.
    + split; [discriminate|]. intros [_ Hlast]%Forall_app.
      apply Forall_inv in Hlast. unfold falsy in Hlast. congruence.
    + split; [|reflexivity]. intros _. apply Forall_app. split; [exact Hall|].
      constructor; [exact E|constructor].
Qed.

(** X14 on a life in which a child throws [undefined], then the error
    ["boom"]. *)
Lemma boundary_holds_last_thrown_witness :
  error {| error := VStr "boom" |}
  = List.last (thrown [Render; ChildThrows VUndefined; Render;
                       ChildThrows (VStr "boom"); Render]) VNull /\
  Forall falsy (removelast (thrown [Render; ChildThrows VUndefined; Render;
                                    ChildThrows (VStr "boom"); Render])) /\
  (@render sample_coercions "Wishlist" {| error := VStr "boom" |} = Children <->
   Forall falsy (thrown [Render; ChildThrows VUndefined; Render;
                         ChildThrows (VStr "boom"); Render])).
Proof.
  apply (@boundary_holds_last_thrown sample_coercions "Wishlist"
           [Render; ChildThrows VUndefined; Render; ChildThrows (VStr "boom"); Render]
           {| error := VStr "boom" |}).
  reflexivity.
Defined.

(** X15: [componentDidCatch] itself throws exactly when [window.zipy] is
    truthy and either has no callable [logException] or [logException]
    throws; with [window.zipy] absent it always returns. *)
Theorem componentDidCatch_throws_iff (title : string) (z : option zipy_sdk) (e : value) :
  snd (componentDidCatch title z e) = TypeError <->
  exists sdk, z = Some sdk /\
    (logException sdk = None \/
     exists f, logException sdk = Some f /\ f [e] = TypeError).
Proof.
  destruct z as [[[f|]]|]; simpl; split.
  - intros Hf. eexists. split; [reflexivity|]. right. now exists f.
  - intros (sdk & [= <-] & [Hnone|(g & [= <-] & Hg)]); [discriminate|exact Hg].
  - intros _. eexists. split; [reflexivity|]. now left.
  - reflexivity.
  - discriminate.
  - intros (sdk & Hsdk & _). discriminate.
Qed.


End BoundaryExtras.

(** ** More about the select control and the grid (theme.js 361-364, 385-432) *)
Module GridExtras.
Import JS Grid SelectControl GridClaims.

Lemma rendered_remotes_list (selected : list string) :
  rendered_remotes selected = RemoteWishlist :: omap remote_of_option selected.
Proof.
  unfold rendered_remotes, grid. cbn [map concat remotes_of app]. f_equal.
  rewrite map_map. apply remotes_of_selected.
Qed.

(** The id under which an option stands for a remote. *)
Lemma remote_of_option_id (opt : item) (i : string) :
  In opt items ->
  remote_of_option i = remote_of_option (id opt) -> i = id opt.
Proof.
  intros Hopt Heq. unfold remote_of_option in Heq at 1.
  repeat match type of Heq with
         | context [String.eqb i ?k] =>
             let E := fresh "E" in
             destruct (String.eqb i k) eqn:E; [apply String.eqb_eq in E; subst i|]
         end;
    destruct Hopt as [<-|[<-|[<-|[<-|[]]]]]; simpl in Heq |- *;
    first [reflexivity | discriminate Heq].
Qed.

Lemma option_has_remote (opt : item) :
  In opt items ->
  exists r, remote_of_option (id opt) = Some r /\ r <> RemoteWishlist.
Proof.
  intros [<-|[<-|[<-|[<-|[]]]]]; simpl; eexists; (split; [reflexivity|discriminate]).
Qed.

(** X17: the checkbox of an option is checked exactly when the remote of
    that option is one of the remotes rendered in the grid. *)
Theorem checked_iff_rendered (selected : list string) (opt : item) :
  In opt items ->
  (checked selected opt = true <->
   exists r, remote_of_option (id opt) = Some r /\ In r (rendered_remotes selected)).
Proof.
  intros Hopt. destruct (option_has_remote opt Hopt) as (r & Hr & Hnw).
  unfold checked. rewrite existsb_exists, rendered_remotes_list. split.
  - intros (i & Hi & ->%String.eqb_eq). exists r. split; [exact Hr|].
    right. apply list_elem_of_In, list_elem_of_omap.
    exists (id opt). split; [now apply list_elem_of_In|exact Hr].
  - intros (r' & Hr' & [Hw|Hin]).
    + congruence.
    + apply list_elem_of_In, list_elem_of_omap in Hin as (i & Hi & Hri).
      exists i. split; [now apply list_elem_of_In|].
      apply String.eqb_eq, (remote_of_option_id opt i Hopt). congruence.
Qed.

(** X17 for the option [checkout.cart] under the selection
    [[account.profile; checkout.cart]]. *)
Lemma checked_iff_rendered_witness :
  checked ["account.profile"; "checkout.cart"]
    {| id := "checkout.cart"; label := "Checkout → Cart"; render := fun _ => Lazy RemoteCart |}
  = true <->
  exists r, remote_of_option "checkout.cart" = Some r /\
            In r (rendered_remotes ["account.profile"; "checkout.cart"]).
Proof.
  apply (checked_iff_rendered ["account.profile"; "checkout.cart"]
           {| id := "checkout.cart"; label := "Checkout → Cart";
              render := fun _ => Lazy RemoteCart |}).
  right. right. left. reflexivity.
Defined.

Lemma byId_items_id (i : string) (it : item) :
  byId items !! i = Some it -> id it = i.
Proof.
  unfold byId, items. simpl. rewrite !lookup_insert, lookup_empty.
  repeat case_decide; subst; intros [= <-]; reflexivity.
Qed.

Lemma grid_keys (selected : list string) :
  omap key_of (grid selected) = map id (selectedItems selected).
Proof.
  unfold grid. cbn [omap list_omap key_of].
  induction (selectedItems selected) as [|it its IH]; [reflexivity|].
  cbn [map omap list_omap key_of]. now rewrite <- IH.
Qed.

Lemma selected_ids_sublist (selected : list string) :
  map id (selectedItems selected) `sublist_of` selected.
Proof.
  unfold selectedItems. induction selected as [|i selected IH]; [constructor|].
  cbn [omap list_omap]. destruct (byId items !! i) as [it|] eqn:E.
  - cbn [map]. rewrite (byId_items_id _ _ E). now apply sublist_skip.
  - now apply sublist_cons.
Qed.

(** X18: when no id is selected twice, the keys given to the boundaries of
    the grid are pairwise distinct (the Wishlist boundary has no key), as
    React asks of sibling keys. *)
Theorem grid_keys_distinct (selected : list string) :
  NoDup selected -> NoDup (omap key_of (grid selected)).
Proof.
  intros Hnd. rewrite grid_keys.
  exact (sublist_NoDup _ _ Hnd (selected_ids_sublist selected)).
Qed.

(** X18 under the selection [[account.profile; nonsense; checkout.cart]]. *)
Lemma grid_keys_distinct_witness :
  NoDup (omap key_of (grid ["account.profile"; "nonsense"; "checkout.cart"])).
Proof.
  apply (grid_keys_distinct ["account.profile"; "nonsense"; "checkout.cart"]).
  repeat (constructor; [rewrite !list_elem_of_In; simpl; intuition discriminate|]).
  constructor.
Defined.



End GridExtras.

(** ** More about the webpack configuration *)
Module WebpackExtras.
Import Webpack WebpackBuild.

Lemma env_var_injective (r r' : remote_name) : env_var r = env_var r' -> r = r'.
Proof. destruct r, r'; simpl; intros Heq; (reflexivity || discriminate). Qed.

(** X20: the URL of a remote depends on that remote's own variable only.
    Setting the variable of a remote makes its URL the given value and leaves
    the URL of every other remote as it was; setting any other variable
    changes no remote URL. *)
Theorem override_is_per_remote (env : gmap string string) (mode : option string)
    (r : remote_name) (u : string) :
  remoteUrl (<[env_var r := u]> env) mode r = u /\
  (forall r', r' <> r ->
     remoteUrl (<[env_var r := u]> env) mode r' = remoteUrl env mode r') /\
  (forall k r', k <> env_var r' ->
     remoteUrl (<[k := u]> env) mode r' = remoteUrl env mode r').
Proof.
  unfold remoteUrl. split; [|split].
  - now rewrite lookup_insert_eq.
  - intros r' Hne. rewrite lookup_insert_ne; [reflexivity|].
    intros Heq. apply Hne. symmetry. now apply env_var_injective.
  - intros k r' Hne. now rewrite lookup_insert_ne.
Qed.

(** X21: the configuration is consistent in every mode.  The css rule uses
    the loader of [MiniCssExtractPlugin] exactly when that plugin is among
    the plugins, and [style-loader] exactly when it is not; the mode is
    ['production'] exactly when [argv.mode] is that string and
    ['development'] in every other case, an absent mode included.  The entry
    and chunk file names are the same template and carry a content hash
    exactly in production, as does every css file name; the asset module file
    name carries a content hash in every mode. *)
Theorem build_mode_consistent (env : gmap string string) (argv_mode : option string)
    (pkg_version : option string) :
  let cfg := module_exports env argv_mode pkg_version in
  (In MiniCssExtractLoader (css_use cfg) <->
   exists f, In (MiniCssExtractPlugin f) (plugins cfg)) /\
  (In StyleLoader (css_use cfg) <->
   ~ exists f, In (MiniCssExtractPlugin f) (plugins cfg)) /\
  (mode cfg = "production" <-> argv_mode = Some "production") /\
  (mode cfg <> "production" -> mode cfg = "development") /\
  (hashed (filename cfg) = true <-> mode cfg = "production") /\
  chunkFilename cfg = filename cfg /\
  hashed (assetModuleFilename cfg) = true /\
  Forall (fun f => hashed f = true) (css_filenames (plugins cfg)).
Proof.
  assert (Hprod : isProd argv_mode = true <-> argv_mode = Some "production").
  { destruct argv_mode as [m|]; simpl; [|split; discriminate].
    rewrite String.eqb_eq. split; [now intros -> | now intros [= ->]]. }
  unfold module_exports. cbn [mode filename chunkFilename assetModuleFilename
                              css_use plugins].
  destruct (isProd argv_mode) eqn:E; cbn [app].
  - split; [|split; [|split; [|split; [|split; [|split; [|split]]]]]].
    + split; [|intros _; now left].
      intros _. eexists. do 3 right. left. reflexivity.
    + split; [intros [[=]|[[=]|[]]]|].
      intros Hno. exfalso. apply Hno. eexists. do 3 right. left. reflexivity.
    + split; [|reflexivity]. intros _. now apply Hprod.
    + congruence.
    + split; reflexivity.
    + reflexivity.
    + reflexivity.
    + repeat constructor.
  - split; [|split; [|split; [|split; [|split; [|split; [|split]]]]]].
    + split; [intros [[=]|[[=]|[]]]|].
      intros (f & [[=]|[[=]|[[=]|[]]]]).
    + split; [|intros _; now left].
      intros _ (f & [[=]|[[=]|[[=]|[]]]]).
    + split; [discriminate|]. intros Hm. apply Hprod in Hm. discriminate.
    + reflexivity.
    + split; discriminate.
    + reflexivity.
    + reflexivity.
    + constructor.
Qed.

End WebpackExtras.
